(** * HomGar integration: a shallow embedding of the cloud client, the
    telemetry decoders and the configuration wizard.

    Conventions of the embedding.
    - A Python [str] is a [string] whose characters are the code points
      below 256.
    - A Python [int] is a [Z]; [|], [<<] are [Z.lor], [Z.shiftl], which
      agree with Python on negative operands as well.
    - A Python [float] is a primitive binary64 [float].
    - An aware UTC [datetime] is the exact number of microseconds since the
      epoch, within the years 1 to 9999, and a [timedelta] a number of
      microseconds.  An operation that leaves the range raises as CPython
      does on a 64-bit Linux host.  A [float] that carries a timestamp is
      kept as mantissa and exponent, every operation on it rounded to
      binary64, ties to even.
    - JSON documents and the values stored in dictionaries are [pyval]s,
      dictionaries are [gmap string pyval].
    - A method that reads or writes [self], reads the clock or talks to the
      network is a computation in the state-and-exception monad [M]; a
      raised exception keeps the state reached so far.  The coroutines are
      run to completion one after the other. *)

From Stdlib Require Import ZArith Floats Uint63 Ascii String.
From stdpp Require Import gmap strings list pretty.

Set Warnings "-register-all,-inexact-float".

Local Open Scope string_scope.
Local Open Scope Z_scope.

(** ** Python values *)

Inductive pyval :=
  | PNone
  | PBool (b : bool)
  | PInt (z : Z)
  | PStr (s : string)
  | PList (l : list pyval)
  | PDict (d : gmap string pyval).

(** Truth value of an object, as tested by [if x] and [not x]. *)
Definition truthy (v : pyval) : bool :=
  match v with
  | PNone => false
  | PBool b => b
  | PInt z => negb (z =? 0)
  | PStr s => negb (String.eqb s "")
  | PList l => match l with [] => false | _ => true end
  | PDict d => negb (bool_decide (d = ∅))
  end.

(** [d.get(k)] and [d.get(k, default)]. *)
Definition dict_get_default (d : gmap string pyval) (k : string) (dflt : pyval) : pyval :=
  default dflt (d !! k).

Definition dict_get (d : gmap string pyval) (k : string) : pyval :=
  dict_get_default d k PNone.

(** [v != 0]: [False] and [0] are equal to [0], nothing else of a JSON
    document is. *)
Definition py_ne_zero (v : pyval) : bool :=
  match v with
  | PInt z => negb (z =? 0)
  | PBool b => b
  | _ => true
  end.

(** ** Exceptions *)

Inductive exn :=
  | ValueError (msg : string)
  | KeyError (key : string)
  | TypeError (msg : string)
  | AttributeError (msg : string)
  | IndexError
  | HomGarApiError (msg : string)
  | ClientError (msg : string)
  | OverflowError (msg : string)
  | OSError (msg : string)
  | OtherError (name : string)
  | AbortFlow (reason : string).

Inductive result (A : Type) :=
  | Ok (a : A)
  | Raise (e : exn).
Arguments Ok {A} a.
Arguments Raise {A} e.

#[global] Instance result_ret : MRet result := fun A a => Ok a.
#[global] Instance result_bind : MBind result := fun A B f m =>
  match m with
  | Ok a => f a
  | Raise e => Raise e
  end.

(** The state-and-exception monad of the methods. *)
Definition M (S A : Type) : Type := S -> result A * S.

#[global] Instance M_ret {S} : MRet (M S) := fun A a s => (Ok a, s).
#[global] Instance M_bind {S} : MBind (M S) := fun A B f m s =>
  match m s with
  | (Ok a, s') => f a s'
  | (Raise e, s') => (Raise e, s')
  end.

Definition raise {S A} (e : exn) : M S A := fun s => (Raise e, s).
Definition lift_result {S A} (r : result A) : M S A := fun s => (r, s).
Definition get_state {S} : M S S := fun s => (Ok s, s).
Definition put_state {S} (s : S) : M S unit := fun _ => (Ok tt, s).

(** ** [int(s, base)] on a string *)

Definition is_space (c : ascii) : bool :=
  let n := Z.of_N (N_of_ascii c) in
  ((9 <=? n) && (n <=? 13)) || (n =? 32) || (n =? 133) || (n =? 160).

Definition digit_value (c : ascii) : option Z :=
  let n := Z.of_N (N_of_ascii c) in
  if (48 <=? n) && (n <=? 57) then Some (n - 48)
  else if (97 <=? n) && (n <=? 122) then Some (n - 87)
  else if (65 <=? n) && (n <=? 90) then Some (n - 55)
  else None.

Definition is_underscore (c : ascii) : bool := Ascii.eqb c "_".

Fixpoint lstrip (s : string) : string :=
  match s with
  | String c r => if is_space c then lstrip r else s
  | EmptyString => s
  end.

(** The digit loop: digits below [base], single underscores between them.
    Returns the value, the number of digits and the unread rest. *)
Fixpoint scan_digits (base acc : Z) (prev_us : bool) (n : nat) (s : string)
  : option (Z * nat * string) :=
  let stop := if prev_us then None else Some (acc, n, s) in
  match s with
  | String c r =>
      if is_underscore c then
        if prev_us then None else scan_digits base acc true n r
      else
        match digit_value c with
        | Some d =>
            if d <? base then scan_digits base (acc * base + d) false (S n) r
            else stop
        | None => stop
        end
  | EmptyString => stop
  end.

Definition strip_sign (s : string) : bool * string :=
  match s with
  | String "+" r => (false, r)
  | String "-" r => (true, r)
  | _ => (false, s)
  end.

Definition strip_prefix (base : Z) (s : string) : string :=
  match s with
  | String "0" (String x r) =>
      if (base =? 16) && (Ascii.eqb x "x" || Ascii.eqb x "X") then
        match r with
        | String "_" r' => r'
        | _ => r
        end
      else s
  | _ => s
  end.

Definition py_int (base : Z) (s : string) : result Z :=
  let invalid := Raise (ValueError "invalid literal for int()") in
  let '(neg, s1) := strip_sign (lstrip s) in
  let s2 := strip_prefix base s1 in
  match s2 with
  | String "_" _ => invalid
  | _ =>
      match scan_digits base 0 false 0 s2 with
      | Some (v, S _, rest) =>
          match lstrip rest with
          | EmptyString => Ok (if neg then - v else v)
          | _ => invalid
          end
      | _ => invalid
      end
  end.

(** ** const.py *)

Module Const.

Definition DOMAIN := "homgar".
Definition CONF_AREA_CODE := "area_code".
Definition CONF_EMAIL := "email".
Definition CONF_PASSWORD := "password".
Definition CONF_HIDS := "hids".
Definition DEFAULT_SCAN_INTERVAL := 120.
Definition CONF_TOKEN := "token".
Definition CONF_REFRESH_TOKEN := "refresh_token".
Definition CONF_TOKEN_EXPIRES_AT := "token_expires_at".
Definition MODEL_MOISTURE_SIMPLE := "HCS026FRF".
Definition MODEL_MOISTURE_FULL := "HCS021FRF".
Definition MODEL_RAIN := "HCS012ARF".

End Const.

(** ** homgar_api.py: payload decoding helpers *)

Module Decoder.

(** [raw[n:]] *)
Fixpoint str_drop (n : nat) (s : string) : string :=
  match n, s with
  | O, _ => s
  | S n', String _ r => str_drop n' r
  | S _, EmptyString => EmptyString
  end.

(** The loop [for i in range(0, len(hex_str), 2)]: every slice
    [hex_str[i : i + 2]] goes through [int(_, 16)], left to right. *)
Fixpoint parse_slices (hex_str : string) : result (list Z) :=
  match hex_str with
  | EmptyString => Ok []
  | String c1 EmptyString =>
      b ← py_int 16 (String c1 EmptyString); Ok [b]
  | String c1 (String c2 rest) =>
      b ← py_int 16 (String c1 (String c2 EmptyString));
      out ← parse_slices rest;
      Ok (b :: out)
  end.

Definition _parse_homgar_payload (raw : string) : result (list Z) :=
  if String.eqb raw "" || negb (String.prefix "10#" raw) then
    Raise (ValueError "Unexpected payload format")
  else
    let hex_str := str_drop 3 raw in
    if negb (Z.of_nat (String.length hex_str) mod 2 =? 0) then
      Raise (ValueError "Hex payload length must be even")
    else parse_slices hex_str.

(** [b[i]] *)
Definition item (b : list Z) (i : nat) : result Z :=
  match b !! i with
  | Some v => Ok v
  | None => Raise IndexError
  end.

Definition _le16 (bytes_ : list Z) (index : nat) : result Z :=
  lo ← item bytes_ index;
  hi ← item bytes_ (index + 1);
  Ok (Z.lor lo (Z.shiftl hi 8)).

(** [float(n)] for an integer; exact on the range the decoders produce. *)
Definition float_of_int (n : Z) : float :=
  if n <? 0 then PrimFloat.opp (PrimFloat.of_uint63 (Uint63.of_Z (- n)))
  else PrimFloat.of_uint63 (Uint63.of_Z n).

Definition _f10_to_c (raw_f10 : Z) : float :=
  let f := (float_of_int raw_f10 / 10.0)%float in
  ((f - 32.0) / 1.8)%float.

(** [b[1] - 256 if b[1] >= 128 else b[1]] *)
Definition signed8 (v : Z) : Z := if 128 <=? v then v - 256 else v.

Record MoistureSimple := {
  ms_type : string;
  ms_rssi_dbm : Z;
  ms_moisture_percent : Z;
  ms_battery_status_code : Z;
  ms_raw_bytes : list Z;
}.

Definition decode_moisture_simple (raw : string) : result MoistureSimple :=
  b ← _parse_homgar_payload raw;
  if (length b <? 9)%nat then
    Raise (ValueError "Moisture simple payload too short")
  else
    b5 ← item b 5;
    if negb (b5 =? 0x88) then
      Raise (ValueError "Expected 0x88 moisture tag at b[5]")
    else
      b1 ← item b 1;
      let rssi := signed8 b1 in
      moisture ← item b 6;
      b7 ← item b 7;
      b8 ← item b 8;
      let status_code := Z.lor (Z.shiftl b7 8) b8 in
      Ok {| ms_type := "moisture_simple";
            ms_rssi_dbm := rssi;
            ms_moisture_percent := moisture;
            ms_battery_status_code := status_code;
            ms_raw_bytes := b |}.

Record MoistureFull := {
  mf_type : string;
  mf_rssi_dbm : Z;
  mf_moisture_percent : Z;
  mf_temperature_c : float;
  mf_temperature_f10 : Z;
  mf_illuminance_lux : float;
  mf_illuminance_raw10 : Z;
  mf_battery_status_code : Z;
  mf_raw_bytes : list Z;
}.

Definition decode_moisture_full (raw : string) : result MoistureFull :=
  b ← _parse_homgar_payload raw;
  if (length b <? 16)%nat then
    Raise (ValueError "Moisture full payload too short")
  else
    b1 ← item b 1;
    let rssi := signed8 b1 in
    temp_raw_f10 ← _le16 b 6;
    let temp_c := _f10_to_c temp_raw_f10 in
    b8 ← item b 8;
    if negb (b8 =? 0x88) then
      Raise (ValueError "Expected 0x88 moisture tag at b[8]")
    else
      moisture ← item b 9;
      b10 ← item b 10;
      if negb (b10 =? 0xC6) then
        Raise (ValueError "Expected 0xC6 lux tag at b[10]")
      else
        lux_raw10 ← _le16 b 11;
        let lux := (float_of_int lux_raw10 / 10.0)%float in
        b14 ← item b 14;
        b15 ← item b 15;
        let status_code := Z.lor (Z.shiftl b14 8) b15 in
        Ok {| mf_type := "moisture_full";
              mf_rssi_dbm := rssi;
              mf_moisture_percent := moisture;
              mf_temperature_c := temp_c;
              mf_temperature_f10 := temp_raw_f10;
              mf_illuminance_lux := lux;
              mf_illuminance_raw10 := lux_raw10;
              mf_battery_status_code := status_code;
              mf_raw_bytes := b |}.

Record Rain := {
  rn_type : string;
  rn_rain_last_hour_mm : float;
  rn_rain_last_24h_mm : float;
  rn_rain_last_7d_mm : float;
  rn_rain_total_mm : float;
  rn_rain_last_hour_raw10 : Z;
  rn_rain_last_24h_raw10 : Z;
  rn_rain_last_7d_raw10 : Z;
  rn_rain_total_raw10 : Z;
  rn_battery_status_code : Z;
  rn_raw_bytes : list Z;
}.

(** [not (b[i] == x and b[i + 1] == y)] *)
Definition marker_missing (b : list Z) (i : nat) (x y : Z) : result bool :=
  bi ← item b i;
  if bi =? x then (bj ← item b (i + 1); Ok (negb (bj =? y)))
  else Ok true.

Definition decode_rain (raw : string) : result Rain :=
  b ← _parse_homgar_payload raw;
  if (length b <? 24)%nat then
    Raise (ValueError "Rain payload too short")
  else
    m1 ← marker_missing b 3 0xFD 0x04;
    if (m1 : bool) then Raise (ValueError "Rain payload missing FD 04 at [3:5]") else
    m2 ← marker_missing b 7 0xFD 0x05;
    if (m2 : bool) then Raise (ValueError "Rain payload missing FD 05 at [7:9]") else
    m3 ← marker_missing b 11 0xFD 0x06;
    if (m3 : bool) then Raise (ValueError "Rain payload missing FD 06 at [11:13]") else
    b17 ← item b 17;
    if negb (b17 =? 0x97) then
      Raise (ValueError "Rain payload missing 0x97 at b[17]")
    else
      last_hour_raw10 ← _le16 b 5;
      last_24h_raw10 ← _le16 b 9;
      last_7d_raw10 ← _le16 b 13;
      total_raw10 ← _le16 b 18;
      b22 ← item b 22;
      b23 ← item b 23;
      let status_code := Z.lor (Z.shiftl b22 8) b23 in
      Ok {| rn_type := "rain";
            rn_rain_last_hour_mm := (float_of_int last_hour_raw10 / 10.0)%float;
            rn_rain_last_24h_mm := (float_of_int last_24h_raw10 / 10.0)%float;
            rn_rain_last_7d_mm := (float_of_int last_7d_raw10 / 10.0)%float;
            rn_rain_total_mm := (float_of_int total_raw10 / 10.0)%float;
            rn_rain_last_hour_raw10 := last_hour_raw10;
            rn_rain_last_24h_raw10 := last_24h_raw10;
            rn_rain_last_7d_raw10 := last_7d_raw10;
            rn_rain_total_raw10 := total_raw10;
            rn_battery_status_code := status_code;
            rn_raw_bytes := b |}.

End Decoder.

(** ** binary64 arithmetic with exact results *)

Module Binary64.

(** A finite [float] as the number [mantissa * 2 ^ exponent]. *)
Record binary64 := {
  mantissa : Z;
  exponent : Z;
}.

(** The integer nearest to [n / d], ties to even; [d] is positive. *)
Definition round_half_even (n d : Z) : Z :=
  let q := n / d in
  let r := n mod d in
  if (d <? 2 * r) || ((2 * r =? d) && Z.odd q) then q + 1 else q.

(** The floor of the binary logarithm of [a / d]; both are positive. *)
Definition log2_ratio (a d : Z) : Z :=
  let l := Z.log2 a - Z.log2 d in
  if (if 0 <=? l then d * 2 ^ l <=? a else d <=? a * 2 ^ (- l)) then l
  else l - 1.

(** The [float] nearest to [n / d], ties to even: 53 significant bits, the
    exponent not below -1074; [d] is positive. *)
Definition round_ratio (n d : Z) : binary64 :=
  if n =? 0 then {| mantissa := 0; exponent := 0 |}
  else
    let a := Z.abs n in
    let e := Z.max (log2_ratio a d - 52) (-1074) in
    let m := round_half_even (a * 2 ^ Z.max 0 (- e)) (d * 2 ^ Z.max 0 e) in
    {| mantissa := Z.sgn n * m; exponent := e |}.

(** The value is 2 ^ 1024 or more in magnitude. *)
Definition overflows (f : binary64) : bool :=
  1024 <=? Z.log2 (Z.abs (mantissa f)) + exponent f.

(** [a / b] on two [int]s, [b] positive: the quotient correctly rounded. *)
Definition int_true_divide (a b : Z) : result binary64 :=
  let f := round_ratio a b in
  if overflows f then
    Raise (OverflowError "integer division result too large for a float")
  else Ok f.

(** [int(f)]: truncation toward zero. *)
Definition int_of_float (f : binary64) : Z :=
  if 0 <=? exponent f then mantissa f * 2 ^ exponent f
  else Z.quot (mantissa f) (2 ^ (- exponent f)).

(** [modf(f, &intpart)]: the fraction as a ratio, with the sign of [f]. *)
Definition fraction (f : binary64) : Z * Z :=
  if 0 <=? exponent f then (0, 1)
  else (Z.rem (mantissa f) (2 ^ (- exponent f)), 2 ^ (- exponent f)).

(** The integer nearest to the value of [f], ties to even. *)
Definition round_float (f : binary64) : Z :=
  if 0 <=? exponent f then mantissa f * 2 ^ exponent f
  else round_half_even (mantissa f) (2 ^ (- exponent f)).

End Binary64.

(** ** datetime *)

Module DateTime.

Import Binary64.

(** An aware UTC [datetime] is its distance from the epoch in microseconds,
    a [timedelta] a number of microseconds. *)
Definition datetime := Z.
Definition timedelta := Z.

Definition MICROSECOND : Z := 1.
Definition SECOND : Z := 1000000.
Definition MINUTE : Z := 60 * SECOND.

(** The Unix times of 0001-01-01T00:00:00 and of 9999-12-31T23:59:59, and
    [datetime.min], [datetime.max] taken as UTC. *)
Definition MIN_TIMESTAMP : Z := -62135596800.
Definition MAX_TIMESTAMP : Z := 253402300799.
Definition datetime_min : datetime := MIN_TIMESTAMP * SECOND.
Definition datetime_max : datetime := MAX_TIMESTAMP * SECOND + 999999.

(** The values a [datetime] can take: the years 1 to 9999. *)
Definition is_datetime (dt : Z) : Prop := datetime_min <= dt <= datetime_max.

(** [timedelta(minutes=m)] and [timedelta(seconds=s)] for a literal. *)
Definition timedelta_minutes (m : Z) : timedelta := m * MINUTE.
Definition timedelta_seconds (s : Z) : timedelta := s * SECOND.

(** [timedelta(seconds=v)] on a value of a JSON document: an integer of at
    most 999999999 days in magnitude ([bool] is an [int]). *)
Definition timedelta_seconds_of (v : pyval) : result timedelta :=
  let of_int z :=
    let days := z / 86400 in
    if (-999999999 <=? days) && (days <=? 999999999)
    then Ok (timedelta_seconds z)
    else Raise (OverflowError "days; must have magnitude <= 999999999") in
  match v with
  | PInt z => of_int z
  | PBool b => of_int (if b then 1 else 0)
  | _ => Raise (TypeError "unsupported type for timedelta seconds component")
  end.

(** [dt + delta] and [dt - delta] *)
Definition datetime_add (dt : datetime) (delta : timedelta) : result datetime :=
  let r := dt + delta in
  if (datetime_min <=? r) && (r <=? datetime_max) then Ok r
  else Raise (OverflowError "date value out of range").

Definition datetime_sub (dt : datetime) (delta : timedelta) : result datetime :=
  datetime_add dt (- delta).

(** The bounds of a 64-bit [time_t] and of the C library's [gmtime]. *)
Definition TIME_T_MIN : Z := - 2 ^ 63.
Definition TIME_T_MAX : Z := 2 ^ 63 - 1.
Definition GMTIME_MIN : Z := -67768040609740800.
Definition GMTIME_MAX : Z := 67768036191676799.

(** [gmtime] on the seconds, then the construction of the [datetime]. *)
Definition utc_from_timet_and_us (timet us : Z) : result datetime :=
  if (timet <? GMTIME_MIN) || (GMTIME_MAX <? timet) then
    Raise (OSError "Value too large for defined data type")
  else if (timet <? MIN_TIMESTAMP) || (MAX_TIMESTAMP <? timet) then
    Raise (ValueError "year is out of range")
  else Ok (timet * SECOND + us).

Definition fromtimestamp_int (z : Z) : result datetime :=
  if (z <? TIME_T_MIN) || (TIME_T_MAX <? z) then
    Raise (OverflowError "timestamp out of range for platform time_t")
  else utc_from_timet_and_us z 0.

(** On a [float]: the fraction times 1e6, rounded as a [float] and then to
    an integer, ties to even, gives the microseconds. *)
Definition fromtimestamp_float (f : binary64) : result datetime :=
  let intpart := int_of_float f in
  let '(fn, fd) := fraction f in
  let floatpart := round_float (round_ratio (fn * 1000000) fd) in
  let '(sec, us) :=
    if 1000000 <=? floatpart then (intpart + 1, floatpart - 1000000)
    else if floatpart <? 0 then (intpart - 1, floatpart + 1000000)
    else (intpart, floatpart) in
  if (sec <? - 2 ^ 63) || (2 ^ 63 <? sec) then
    Raise (OverflowError "timestamp out of range for platform time_t")
  else utc_from_timet_and_us sec us.

(** [datetime.fromtimestamp(ts, tz=timezone.utc)] on a stored value: an
    integer number of seconds ([bool] is an [int]); anything else of a
    dictionary is refused. *)
Definition fromtimestamp (ts : pyval) : result datetime :=
  match ts with
  | PInt z => fromtimestamp_int z
  | PBool b => fromtimestamp_int (if b then 1 else 0)
  | _ => Raise (TypeError "object cannot be interpreted as an integer")
  end.

(** [datetime.fromtimestamp(ts_server / 1000, tz=timezone.utc)] *)
Definition fromtimestamp_div_1000 (ts_server : pyval) : result datetime :=
  let of_int z := f ← int_true_divide z 1000; fromtimestamp_float f in
  match ts_server with
  | PInt z => of_int z
  | PBool b => of_int (if b then 1 else 0)
  | _ => Raise (TypeError "unsupported operand type(s) for /")
  end.

(** [dt.timestamp()]: the microseconds since the epoch divided by 10 ** 6,
    as a [float]. *)
Definition timestamp (dt : datetime) : binary64 := round_ratio dt SECOND.

(** [int(dt.timestamp())] *)
Definition timestamp_int (dt : datetime) : Z := int_of_float (timestamp dt).

End DateTime.

(** ** homgar_api.py: the cloud client *)

Module Api.

Import Const DateTime.

Inductive http_method := GET | POST.

Record request := {
  req_method : http_method;
  req_url : string;
  req_params : gmap string pyval;
  req_headers : gmap string pyval;
  req_json : pyval;
}.

(** What the session hands back: [resp.status] and the outcome of
    [await resp.json()]. *)
Record response := {
  status : Z;
  json : result pyval;
}.

(** The surroundings of a client: the clock behind [datetime.now] (the
    reading returned by the n-th call) and the vendor cloud behind the
    shared session (its answer to the latest request, given all requests so
    far), with the count of clock readings and the log of requests. *)
Record world := {
  clock : nat -> datetime;
  clock_reads : nat;
  server : list request -> result response;
  sent : list request;
}.

Record HomGarClient := {
  _area_code : string;
  _email : string;
  _password : string;
  _token : pyval;
  _refresh_token : pyval;
  _token_expires_at : option datetime;
  _base_url : string;
}.

(** [HomGarClient.__init__] *)
Definition __init__ (area_code email password : string) : HomGarClient :=
  {| _area_code := area_code;
     _email := email;
     _password := password;
     _token := PNone;
     _refresh_token := PNone;
     _token_expires_at := None;
     _base_url := "https://region3.homgarus.com" |}.

Definition set_token (v : pyval) (c : HomGarClient) : HomGarClient :=
  {| _area_code := _area_code c; _email := _email c; _password := _password c;
     _token := v;
     _refresh_token := _refresh_token c;
     _token_expires_at := _token_expires_at c;
     _base_url := _base_url c |}.

Definition set_refresh_token (v : pyval) (c : HomGarClient) : HomGarClient :=
  {| _area_code := _area_code c; _email := _email c; _password := _password c;
     _token := _token c;
     _refresh_token := v;
     _token_expires_at := _token_expires_at c;
     _base_url := _base_url c |}.

Definition set_token_expires_at (v : option datetime) (c : HomGarClient) : HomGarClient :=
  {| _area_code := _area_code c; _email := _email c; _password := _password c;
     _token := _token c;
     _refresh_token := _refresh_token c;
     _token_expires_at := v;
     _base_url := _base_url c |}.

Definition cstate : Type := world * HomGarClient.

Definition self : M cstate HomGarClient := fun s => (Ok (snd s), s).

Definition update_self (f : HomGarClient -> HomGarClient) : M cstate unit :=
  fun s => (Ok tt, (fst s, f (snd s))).

(** The world after one more reading of the clock, and after one more
    request has left. *)
Definition tick (w : world) : world :=
  {| clock := clock w; clock_reads := S (clock_reads w);
     server := server w; sent := sent w |}.

Definition record_request (r : request) (w : world) : world :=
  {| clock := clock w; clock_reads := clock_reads w;
     server := server w; sent := (sent w ++ [r])%list |}.

(** [datetime.now(timezone.utc)] *)
Definition datetime_now : M cstate datetime := fun s =>
  let w := fst s in
  (Ok (clock w (clock_reads w)), (tick w, snd s)).

(** [async with self._session.post(...)/get(...) as resp] *)
Definition http (r : request) : M cstate response := fun s =>
  let w := record_request r (fst s) in
  (server w (sent w), (w, snd s)).

(** [v.get(k, default)], [v[k]] and [k in v] on a value of a JSON document,
    for a string key. *)
Definition py_get (v : pyval) (k : string) (dflt : pyval) : result pyval :=
  match v with
  | PDict d => Ok (dict_get_default d k dflt)
  | _ => Raise (AttributeError "get")
  end.

Definition py_getitem (v : pyval) (k : string) : result pyval :=
  match v with
  | PDict d =>
      match d !! k with
      | Some x => Ok x
      | None => Raise (KeyError k)
      end
  | _ => Raise (TypeError "subscript")
  end.

Definition py_contains (v : pyval) (k : string) : bool :=
  match v with
  | PDict d => bool_decide (is_Some (d !! k))
  | _ => false
  end.

(** *** token state helpers *)

Definition restore_tokens (data : gmap string pyval) : M cstate unit :=
  update_self (set_token (dict_get data CONF_TOKEN));;
  update_self (set_refresh_token (dict_get data CONF_REFRESH_TOKEN));;
  let ts := dict_get data CONF_TOKEN_EXPIRES_AT in
  match ts with
  | PNone => mret tt
  | _ =>
      dt ← lift_result (fromtimestamp ts);
      update_self (set_token_expires_at (Some dt))
  end.

Definition export_tokens : M cstate (gmap string pyval) :=
  c ← self;
  mret ({[ CONF_TOKEN := _token c;
           CONF_REFRESH_TOKEN := _refresh_token c;
           CONF_TOKEN_EXPIRES_AT :=
             match _token_expires_at c with
             | Some dt => PInt (timestamp_int dt)
             | None => PNone
             end ]} : gmap string pyval).

Definition _token_valid : M cstate bool :=
  c ← self;
  match truthy (_token c), _token_expires_at c with
  | true, Some expires_at =>
      (* refresh a little before expiry *)
      now ← datetime_now;
      limit ← lift_result (datetime_sub expires_at (timedelta_minutes 5));
      mret (now <? limit)
  | _, _ => mret false
  end.

Section Login.

(** [hashlib.md5(s.encode("utf-8")).hexdigest()] *)
Variable md5_hexdigest : string -> string.

Definition login_headers : gmap string pyval :=
  {[ "Content-Type" := PStr "application/json";
     "lang" := PStr "en";
     "appCode" := PStr "1" ]}.

Definition login_request (c : HomGarClient) : request :=
  let md5 := md5_hexdigest (_password c) in
  let device_id := md5_hexdigest (_email c ++ _area_code c) in
  {| req_method := POST;
     req_url := _base_url c ++ "/auth/basic/app/login";
     req_params := ∅;
     req_headers := login_headers;
     req_json := PDict {[ "areaCode" := PStr (_area_code c);
                          "phoneOrEmail" := PStr (_email c);
                          "password" := PStr md5;
                          "deviceId" := PStr device_id ]} |}.

Definition _login : M cstate unit :=
  c ← self;
  resp ← http (login_request c);
  if negb (status resp =? 200) then raise (HomGarApiError "Login HTTP") else
  data ← lift_result (json resp);
  code ← lift_result (py_get data "code" PNone);
  if py_ne_zero code || negb (py_contains data "data") then
    raise (HomGarApiError "Login failed")
  else
    d ← lift_result (py_getitem data "data");
    token ← lift_result (py_getitem d "token");
    update_self (set_token token);;
    refresh_token ← lift_result (py_get d "refreshToken" PNone);
    update_self (set_refresh_token refresh_token);;
    token_expired_secs ← lift_result (py_get d "tokenExpired" (PInt 0));
    ts_server ← lift_result (py_get data "ts" PNone);
    base ← (if truthy ts_server
            then lift_result (fromtimestamp_div_1000 ts_server)
            else datetime_now);
    delta ← lift_result (timedelta_seconds_of token_expired_secs);
    expires_at ← lift_result (datetime_add base delta);
    update_self (set_token_expires_at (Some expires_at)).

Definition ensure_logged_in : M cstate unit :=
  valid ← _token_valid;
  if (valid : bool) then mret tt else _login.

Definition _auth_headers : M cstate (gmap string pyval) :=
  c ← self;
  if negb (truthy (_token c)) then raise (HomGarApiError "Token not available")
  else mret ({[ "auth" := _token c; "lang" := PStr "en"; "appCode" := PStr "1" ]}
             : gmap string pyval).

(** *** API calls *)

(** The shape shared by the three calls: login if needed, one GET with the
    auth headers, status and [code] checked, [data.get("data", default)]. *)
Definition api_get (name path : string) (params : gmap string pyval)
    (dflt : pyval) : M cstate pyval :=
  ensure_logged_in;;
  c ← self;
  headers ← _auth_headers;
  resp ← http {| req_method := GET;
                 req_url := _base_url c ++ path;
                 req_params := params;
                 req_headers := headers;
                 req_json := PNone |};
  if negb (status resp =? 200) then raise (HomGarApiError (name ++ " HTTP")) else
  data ← lift_result (json resp);
  code ← lift_result (py_get data "code" PNone);
  if py_ne_zero code then raise (HomGarApiError (name ++ " failed"))
  else lift_result (py_get data "data" dflt).

Definition list_homes : M cstate pyval :=
  api_get "list_homes" "/app/member/appHome/list" ∅ (PList []).

Definition get_devices_by_hid (hid : Z) : M cstate pyval :=
  api_get "getDeviceByHid" "/app/device/getDeviceByHid"
          {[ "hid" := PInt hid ]} (PList []).

Definition get_device_status (mid : Z) : M cstate pyval :=
  api_get "getDeviceStatus" "/app/device/getDeviceStatus"
          {[ "mid" := PInt mid ]} (PDict ∅).

End Login.

End Api.

(** ** config_flow.py: the configuration wizard *)

Module ConfigFlow.

Import Const DateTime.

(** A configuration entry held by the host platform. *)
Record ConfigEntry := {
  entry_unique_id : option string;
  entry_title : string;
  entry_data : gmap string pyval;
}.

(** [vol.Schema]: the required keys of a form with their defaults and
    validators ([str] or [vol.In(options)]). *)
Inductive validator :=
  | VStr
  | VIn (options : gmap string pyval).

Record schema_field := {
  field_key : string;
  field_default : option string;
  field_validator : validator;
}.

Inductive FlowResult :=
  | ShowForm (step_id : string) (data_schema : list schema_field)
             (errors : gmap string string)
  | CreateEntry (title : string) (data : gmap string pyval).

(** The submitted form of step "user" and of step "select_homes", as the
    host hands them over after validation against the step's schema. *)
Record UserInput := {
  area_code : string;
  email : string;
  password : string;
}.

Record SelectInput := {
  hids : string;
}.

(** The attributes of the flow object; [None] is an attribute not set. *)
Record HomGarConfigFlow := {
  unique_id : option string;
  _area_code : option string;
  _email : option string;
  _password : option string;
  _homes : option pyval;
  _client : option Api.HomGarClient;
}.

Definition new_flow : HomGarConfigFlow :=
  {| unique_id := None; _area_code := None; _email := None;
     _password := None; _homes := None; _client := None |}.

(** The state a step runs in: the surroundings of the client, the entries
    already configured for this domain, and the flow object. *)
Record wstate := {
  w_world : Api.world;
  w_entries : list ConfigEntry;
  w_flow : HomGarConfigFlow;
}.

Definition set_world (w : Api.world) (s : wstate) : wstate :=
  {| w_world := w; w_entries := w_entries s; w_flow := w_flow s |}.

Definition set_flow (f : HomGarConfigFlow) (s : wstate) : wstate :=
  {| w_world := w_world s; w_entries := w_entries s; w_flow := f |}.

Definition flow : M wstate HomGarConfigFlow := fun s => (Ok (w_flow s), s).

(** Reading an attribute of the flow object. *)
Definition attr {A} (name : string) (a : option A) : M wstate A :=
  match a with
  | Some x => mret x
  | None => raise (AttributeError name)
  end.

(** Host platform: [async_set_unique_id] records the key on the flow.  One
    flow runs at a time here; the host's check against other flows in
    progress for the same key has nothing to find. *)
Definition async_set_unique_id (uid : string) : M wstate unit := fun s =>
  let f := w_flow s in
  (Ok tt,
   set_flow {| unique_id := Some uid; _area_code := _area_code f;
               _email := _email f; _password := _password f;
               _homes := _homes f; _client := _client f |} s).

Definition has_unique_id (uid : string) (e : ConfigEntry) : bool :=
  bool_decide (entry_unique_id e = Some uid).

(** Host platform: [_abort_if_unique_id_configured] aborts the flow when an
    entry of the domain carries the flow's key. *)
Definition _abort_if_unique_id_configured : M wstate unit := fun s =>
  match unique_id (w_flow s) with
  | None => (Ok tt, s)
  | Some uid =>
      if existsb (has_unique_id uid) (w_entries s)
      then (Raise (AbortFlow "already_configured"), s)
      else (Ok tt, s)
  end.

Definition async_show_form (step_id : string) (data_schema : list schema_field)
    (errors : gmap string string) : FlowResult :=
  ShowForm step_id data_schema errors.

Definition async_create_entry (title : string) (data : gmap string pyval)
  : FlowResult :=
  CreateEntry title data.

(** Host platform: the flow manager adds an entry, keyed by the flow's
    unique id, for a create-entry result and for nothing else. *)
Definition host_finish (r : result FlowResult) (s : wstate) : wstate :=
  match r with
  | Ok (CreateEntry title data) =>
      {| w_world := w_world s;
         w_entries := (w_entries s ++
                       [ {| entry_unique_id := unique_id (w_flow s);
                            entry_title := title;
                            entry_data := data |} ])%list;
         w_flow := w_flow s |}
  | _ => s
  end.

(** Running methods of a client object held in a local variable. *)
Definition on_client {A} (c : Api.HomGarClient) (m : M Api.cstate A)
  : M wstate (A * Api.HomGarClient) := fun s =>
  match m (w_world s, c) with
  | (Ok a, (w', c')) => (Ok (a, c'), set_world w' s)
  | (Raise e, (w', _)) => (Raise e, set_world w' s)
  end.

(** [try: body / except ...: handler / else: orelse]; a handler of [None]
    is an exception no clause matches. *)
Definition try_except_else {S A B} (body : M S A)
    (handler : exn -> option (M S B)) (orelse : A -> M S B) : M S B := fun s =>
  match body s with
  | (Ok a, s') => orelse a s'
  | (Raise e, s') =>
      match handler e with
      | Some h => h s'
      | None => (Raise e, s')
      end
  end.

Section Flow.

Variable md5_hexdigest : string -> string.

(** [str(v)] of a list or a dictionary. *)
Variable container_str : pyval -> string.

Definition py_str (v : pyval) : string :=
  match v with
  | PNone => "None"
  | PBool true => "True"
  | PBool false => "False"
  | PInt z => pretty z
  | PStr s => s
  | _ => container_str v
  end.

(** [{str(h["hid"]): h["homeName"] for h in homes}] over a list. *)
Fixpoint home_options_of (hs : list pyval) (acc : gmap string pyval)
  : result (gmap string pyval) :=
  match hs with
  | [] => Ok acc
  | h :: hs' =>
      hid ← Api.py_getitem h "hid";
      name ← Api.py_getitem h "homeName";
      home_options_of hs' (<[py_str hid := name]> acc)
  end.

Definition home_options (homes : pyval) : result (gmap string pyval) :=
  match homes with
  | PList hs => home_options_of hs ∅
  | PStr s => if String.eqb s "" then Ok ∅ else Raise (TypeError "subscript")
  | PDict d =>
      if bool_decide (d = ∅) then Ok ∅ else Raise (TypeError "subscript")
  | _ => Raise (TypeError "not iterable")
  end.

Definition select_homes_schema (options : gmap string pyval) : list schema_field :=
  [ {| field_key := CONF_HIDS; field_default := None;
       field_validator := VIn options |} ].

Definition async_step_select_homes (user_input : option SelectInput)
  : M wstate FlowResult :=
  f ← flow;
  homes ← attr "_homes" (_homes f);
  options ← lift_result (home_options homes);
  let form errors :=
    async_show_form "select_homes" (select_homes_schema options) errors in
  match user_input with
  | None => mret (form ∅)
  | Some ui =>
      let selected := hids ui in
      if String.eqb selected "" then
        mret (form {[ "base" := "select_at_least_one" ]})
      else
        (* single home for now *)
        hid ← lift_result (py_int 10 selected);
        client ← attr "_client" (_client f);
        '(token_data, _) ← on_client client Api.export_tokens;
        a ← attr "_area_code" (_area_code f);
        e ← attr "_email" (_email f);
        p ← attr "_password" (_password f);
        let data : gmap string pyval :=
          token_data ∪ {[ CONF_AREA_CODE := PStr a;
                          CONF_EMAIL := PStr e;
                          CONF_PASSWORD := PStr p;
                          CONF_HIDS := PList [PInt hid] ]} in
        mret (async_create_entry ("HomGar (" ++ e ++ ")") data)
  end.

Definition user_schema : list schema_field :=
  [ {| field_key := CONF_AREA_CODE; field_default := Some "27";
       field_validator := VStr |};
    {| field_key := CONF_EMAIL; field_default := None;
       field_validator := VStr |};
    {| field_key := CONF_PASSWORD; field_default := None;
       field_validator := VStr |} ].

Definition user_form (errors : gmap string string) : FlowResult :=
  async_show_form "user" user_schema errors.

(** The two awaited calls of the [try] block. *)
Definition probe : M Api.cstate pyval :=
  Api.ensure_logged_in md5_hexdigest;;
  Api.list_homes md5_hexdigest.

(** Store temp values for the next step. *)
Definition store (ui : UserInput) (homes : pyval) (client : Api.HomGarClient)
  : M wstate unit := fun s =>
  (Ok tt,
   set_flow {| unique_id := unique_id (w_flow s);
               _area_code := Some (area_code ui);
               _email := Some (email ui);
               _password := Some (password ui);
               _homes := Some homes;
               _client := Some client |} s).

Definition async_step_user (user_input : option UserInput)
  : M wstate FlowResult :=
  match user_input with
  | None => mret (user_form ∅)
  | Some ui =>
      (* Single account per HA instance *)
      async_set_unique_id (DOMAIN ++ "_" ++ email ui);;
      _abort_if_unique_id_configured;;
      let client := Api.__init__ (area_code ui) (email ui) (password ui) in
      try_except_else (on_client client probe)
        (fun e =>
           match e with
           | HomGarApiError _ => Some (mret (user_form {[ "base" := "auth_failed" ]}))
           | ClientError _ => Some (mret (user_form {[ "base" := "cannot_connect" ]}))
           | _ => None
           end)
        (fun '(homes, client') =>
           if negb (truthy homes) then
             mret (user_form {[ "base" := "no_homes" ]})
           else
             store ui homes client';;
             async_step_select_homes None)
  end.

End Flow.

End ConfigFlow.

(** * Properties *)

Import Const Binary64 DateTime.

(** ** Vocabulary of the statements *)

(** A decoder fails with the invalid-format error ([ValueError]). *)
Definition InvalidFormat {A} (r : result A) : Prop :=
  exists msg, r = Raise (ValueError msg).

(** [v] is the little-endian read [low | (high << 8)] at offset [i] of [b]. *)
Definition le16_of (b : list Z) (i : nat) (v : Z) : Prop :=
  exists lo hi,
    b !! i = Some lo /\ b !! S i = Some hi /\ v = Z.lor lo (Z.shiftl hi 8).

(** The framing of [s] yields one entry per two characters. *)
Definition slices_counted (s : string) : Prop :=
  forall out, Decoder.parse_slices s = Ok out ->
    (String.length s <= 2 * length out <= String.length s + 1)%nat.

(** The requests that have left once a computation is over. *)
Definition requests_after {A} (out : result A * Api.cstate) : list Api.request :=
  Api.sent (fst (snd out)).

(** From state [s], [out] is a return with no request sent and the client
    as it was. *)
Definition returns_without_login (s : Api.cstate)
    (out : result unit * Api.cstate) : Prop :=
  fst out = Ok tt /\ requests_after out = Api.sent (fst s) /\ snd (snd out) = snd s.

(** From state [s], the one request that has left is the login request. *)
Definition performs_login md5 (s : Api.cstate) {A}
    (out : result A * Api.cstate) : Prop :=
  requests_after out = (Api.sent (fst s) ++ [Api.login_request md5 (snd s)])%list.


(** A token is held: the test of [_token_valid] and of [_auth_headers]. *)
Definition token_held (c : Api.HomGarClient) : Prop :=
  truthy (Api._token c) = true.

(** The snapshot [export_tokens] builds. *)
Definition snapshot_of (c : Api.HomGarClient) : gmap string pyval :=
  {[ CONF_TOKEN := Api._token c;
     CONF_REFRESH_TOKEN := Api._refresh_token c;
     CONF_TOKEN_EXPIRES_AT :=
       match Api._token_expires_at c with
       | Some dt => PInt (timestamp_int dt)
       | None => PNone
       end ]}.

(** The exported expiry is the absent value exactly when no token is held. *)
Definition expiry_absent_iff_no_token (w : Api.world) (c : Api.HomGarClient) : Prop :=
  forall d, fst (Api.export_tokens (w, c)) = Ok d ->
    (d !! CONF_TOKEN_EXPIRES_AT = Some PNone <-> ~ token_held c).

(** Export the token state of [c] and restore it into a new client built
    from the same credentials. *)
Definition export_then_restore (w : Api.world) (c : Api.HomGarClient)
  : result Api.HomGarClient :=
  match Api.export_tokens (w, c) with
  | (Ok snapshot, _) =>
      let fresh := Api.__init__ (Api._area_code c) (Api._email c) (Api._password c) in
      match Api.restore_tokens snapshot (w, fresh) with
      | (Ok _, (_, c')) => Ok c'
      | (Raise e, _) => Raise e
      end
  | (Raise e, _) => Raise e
  end.

(** What [_token_valid] answers for [c] in the world [w]. *)
Definition validity_decision (w : Api.world) (c : Api.HomGarClient) : result bool :=
  fst (Api._token_valid (w, c)).

Definition roundtrip_preserves_validity (w : Api.world) (c : Api.HomGarClient) : Prop :=
  exists c', export_then_restore w c = Ok c' /\
    validity_decision w c' = validity_decision w c.

(** The expiry, if any, has no fraction of a second. *)
Definition whole_seconds (c : Api.HomGarClient) : Prop :=
  forall dt, Api._token_expires_at c = Some dt -> dt mod SECOND = 0.

(** The expiry, if any, is a value the type [datetime] has. *)
Definition expiry_is_datetime (c : Api.HomGarClient) : Prop :=
  forall dt, Api._token_expires_at c = Some dt -> is_datetime dt.

(** The uniqueness key of step "user". *)
Definition unique_id_for (em : string) : string := DOMAIN ++ "_" ++ em.

Definition entry_email (e : ConfigFlow.ConfigEntry) : pyval :=
  dict_get (ConfigFlow.entry_data e) CONF_EMAIL.

(** An entry for the account [em] is configured. *)
Definition email_configured (em : string)
    (entries : list ConfigFlow.ConfigEntry) : Prop :=
  exists e, e ∈ entries /\ entry_email e = PStr em /\
            ConfigFlow.entry_unique_id e = Some (unique_id_for em).

(** No configured entry carries the key of the account [em]. *)
Definition key_free (em : string) (entries : list ConfigFlow.ConfigEntry) : Prop :=
  forall e, e ∈ entries -> ConfigFlow.entry_unique_id e <> Some (unique_id_for em).

(** ** Concrete surroundings used in the examples *)

(** A world whose clock stands at [now] and whose network is down. *)
Definition frozen_world (now : datetime) : Api.world :=
  {| Api.clock := fun _ => now; Api.clock_reads := 0;
     Api.server := fun _ => Raise (ClientError "offline"); Api.sent := [] |}.

Definition client_with (token : pyval) (expires_at : option datetime)
  : Api.HomGarClient :=
  Api.set_token_expires_at expires_at
    (Api.set_token token (Api.__init__ "27" "user@example.org" "secret")).

(** A new client restored from a snapshot that holds a token only. *)
Definition bare_token_client : Api.HomGarClient :=
  snd (snd (Api.restore_tokens {[ CONF_TOKEN := PStr "abc" ]}
              (frozen_world 0, Api.__init__ "27" "user@example.org" "secret"))).

(** A client whose expiry falls half a second after a whole second. *)
Definition subsecond_client : Api.HomGarClient :=
  client_with (PStr "tok") (Some 1700000000500000).

Definition login_ok_body : pyval :=
  PDict {[ "code" := PInt 0;
           "data" := PDict {[ "token" := PStr "T";
                              "refreshToken" := PStr "R";
                              "tokenExpired" := PInt 3600 ]} ]}.

(** A cloud that accepts the login and answers every later request with
    HTTP 500. *)
Definition homes_down_world : Api.world :=
  {| Api.clock := fun _ => 1700000000000000; Api.clock_reads := 0;
     Api.server := fun log =>
       match log with
       | [_] => Ok {| Api.status := 200; Api.json := Ok login_ok_body |}
       | _ => Ok {| Api.status := 500; Api.json := Raise (OtherError "JSONDecodeError") |}
       end;
     Api.sent := [] |}.

(** A cloud that refuses the login with HTTP 401. *)
Definition login_refused_world : Api.world :=
  {| Api.clock := fun _ => 1700000000000000; Api.clock_reads := 0;
     Api.server := fun _ =>
       Ok {| Api.status := 401; Api.json := Raise (OtherError "JSONDecodeError") |};
     Api.sent := [] |}.

Definition sample_input : ConfigFlow.UserInput :=
  {| ConfigFlow.area_code := "27";
     ConfigFlow.email := "user@example.org";
     ConfigFlow.password := "secret" |}.

Definition sample_entry : ConfigFlow.ConfigEntry :=
  {| ConfigFlow.entry_unique_id := Some "homgar_user@example.org";
     ConfigFlow.entry_title := "HomGar (user@example.org)";
     ConfigFlow.entry_data := {[ CONF_EMAIL := PStr "user@example.org" ]} |}.

Definition wizard_state (w : Api.world) (entries : list ConfigFlow.ConfigEntry)
  : ConfigFlow.wstate :=
  {| ConfigFlow.w_world := w;
     ConfigFlow.w_entries := entries;
     ConfigFlow.w_flow := ConfigFlow.new_flow |}.

(** ** Reduction of the monads *)

Ltac rsimpl := cbv beta iota delta [mbind result_bind mret result_ret].

Ltac msimpl :=
  cbv beta iota zeta delta [mbind M_bind mret M_ret raise lift_result Api.self
                            Api.update_self Api.http Api.datetime_now fst snd].

Ltac wsimpl :=
  cbv beta iota zeta delta
    [mbind M_bind mret M_ret raise lift_result
     ConfigFlow.async_set_unique_id ConfigFlow._abort_if_unique_id_configured
     ConfigFlow.try_except_else ConfigFlow.on_client ConfigFlow.set_flow
     ConfigFlow.set_world ConfigFlow.flow ConfigFlow.w_flow ConfigFlow.w_world
     ConfigFlow.w_entries ConfigFlow.unique_id fst snd].

Import Decoder Api ConfigFlow.

(** ** Further vocabulary *)

(** The hexadecimal digit of [d], upper or lower case. *)
Definition hex_char (upper : bool) (d : Z) : ascii :=
  if d <? 10 then ascii_of_N (Z.to_N (48 + d))
  else ascii_of_N (Z.to_N ((if upper then 55 else 87) + d)).

(** Two hexadecimal digits per byte, high digit first. *)
Fixpoint hex_encode (upper : bool) (bs : list Z) : string :=
  match bs with
  | [] => ""
  | b :: rest =>
      String (hex_char upper (b / 16))
        (String (hex_char upper (b mod 16)) (hex_encode upper rest))
  end.

(** An unsigned 8-bit value. *)
Definition is_byte (b : Z) : Prop := 0 <= b <= 255.

(** Every character of the model. *)
Definition all_ascii : list ascii := map ascii_of_nat (seq 0 256).

(** [int(s, 16)] fails or lands in [lo..hi]. *)
Definition slice_in_range (lo hi : Z) (s : string) : bool :=
  match py_int 16 s with
  | Ok v => (lo <=? v) && (v <=? hi)
  | Raise _ => true
  end.

(** [int(_, 16)] reads the two digits of [b] back as [b]. *)
Definition hex_pair_parses (upper : bool) (b : Z) : bool :=
  match py_int 16 (String (hex_char upper (b / 16))
                     (String (hex_char upper (b mod 16)) "")) with
  | Ok v => v =? b
  | Raise _ => false
  end.

(** A failure, if any, is the invalid-format error. *)
Definition only_invalid_format {A} (r : result A) : Prop :=
  forall e, r = Raise e -> exists msg, e = ValueError msg.

(** The fixed marker bytes of the rain layout. *)
Definition rain_markers (b : list Z) : Prop :=
  b !! 3%nat = Some 0xFD /\ b !! 4%nat = Some 0x04 /\
  b !! 7%nat = Some 0xFD /\ b !! 8%nat = Some 0x05 /\
  b !! 11%nat = Some 0xFD /\ b !! 12%nat = Some 0x06 /\
  b !! 17%nat = Some 0x97.

(** [v] is the big-endian read [(high << 8) | low] at offset [i] of [b]. *)
Definition be16_of (b : list Z) (i : nat) (v : Z) : Prop :=
  exists hi lo,
    b !! i = Some hi /\ b !! S i = Some lo /\ v = Z.lor (Z.shiftl hi 8) lo.

(** An unsigned 16-bit value. *)
Definition word16 (v : Z) : Prop := 0 <= v <= 65535.

(** On this pair, [lo | (hi << 8)] is [lo + 256 * hi]. *)
Definition byte_pair_adds (lo hi : Z) : bool :=
  Z.lor lo (Z.shiftl hi 8) =? lo + 256 * hi.

(** The cloud's answer to the login request of [c] sent from [w]. *)
Definition login_reply md5 (w : world) (c : HomGarClient) : result response :=
  server w (sent w ++ [login_request md5 c])%list.

(** The answer is one [_login] accepts: HTTP 200, a JSON object whose
    [code] equals 0 and whose [data] is an object [d] holding [token]. *)
Definition accepted_login (r : result response) (body d : gmap string pyval)
    (token : pyval) : Prop :=
  exists resp, r = Ok resp /\ status resp = 200 /\ json resp = Ok (PDict body) /\
    py_ne_zero (dict_get body "code") = false /\
    body !! "data" = Some (PDict d) /\ d !! "token" = Some token.

(** The instant [_login] counts the lifetime from: the server's [ts]
    (milliseconds) when it is truthy, the clock otherwise. *)
Definition login_base (w : world) (body : gmap string pyval) : result datetime :=
  let ts_server := dict_get body "ts" in
  if truthy ts_server then fromtimestamp_div_1000 ts_server
  else Ok (clock w (clock_reads w)).

(** [timedelta(seconds=d.get("tokenExpired", 0))] *)
Definition login_lifetime (d : gmap string pyval) : result timedelta :=
  timedelta_seconds_of (dict_get_default d "tokenExpired" (PInt 0)).

(** The client once [_login] has stored the token and the refresh token. *)
Definition with_new_token (token : pyval) (d : gmap string pyval)
    (c : HomGarClient) : HomGarClient :=
  set_refresh_token (dict_get d "refreshToken") (set_token token c).

(** The classes of exception the conversions of [ts] and [tokenExpired]
    and the sum of the two raise. *)
Definition conversion_error (e : exn) : Prop :=
  match e with
  | TypeError _ | OverflowError _ | ValueError _ | OSError _ => True
  | _ => False
  end.

(** The GET request of an API call made by the client [c]. *)
Definition get_request (c : HomGarClient) (path : string)
    (params : gmap string pyval) : request :=
  {| req_method := GET;
     req_url := _base_url c ++ path;
     req_params := params;
     req_headers := {[ "auth" := _token c; "lang" := PStr "en"; "appCode" := PStr "1" ]};
     req_json := PNone |}.

(** How the outcome [r] of an API call follows from the answer to its GET
    request. *)
Definition get_contract (name : string) (dflt : pyval)
    (reply : result response) (r : result pyval) : Prop :=
  (forall e, reply = Raise e -> r = Raise e) /\
  (forall resp, reply = Ok resp -> status resp <> 200 ->
     r = Raise (HomGarApiError (name ++ " HTTP"))) /\
  (forall resp body, reply = Ok resp -> status resp = 200 ->
     json resp = Ok (PDict body) -> py_ne_zero (dict_get body "code") = true ->
     r = Raise (HomGarApiError (name ++ " failed"))) /\
  (forall resp body, reply = Ok resp -> status resp = 200 ->
     json resp = Ok (PDict body) -> py_ne_zero (dict_get body "code") = false ->
     r = Ok (dict_get_default body "data" dflt)).

(** [call] sends its GET request and nothing else, leaves the client as it
    was and treats the answer as [get_contract] says. *)
Definition valid_call (w : world) (c : HomGarClient) (call : M cstate pyval)
    (name path : string) (params : gmap string pyval) (dflt : pyval) : Prop :=
  let out := call (w, c) in
  let g := get_request c path params in
  requests_after out = (sent w ++ [g])%list /\ snd (snd out) = c /\
  get_contract name dflt (server w (sent w ++ [g])%list) (fst out).

(** What [call] sends: nothing, when the validity check itself raises
    [OverflowError]; or the login request alone; or one GET request with a
    truthy [auth] header, alone or after the login request. *)
Definition call_requests md5 (w : world) (c : HomGarClient)
    (call : M cstate pyval) (path : string) (params : gmap string pyval) : Prop :=
  let login := login_request md5 c in
  exists new,
    requests_after (call (w, c)) = (sent w ++ new)%list /\
    ((new = [] /\ exists msg, fst (call (w, c)) = Raise (OverflowError msg)) \/
     new = [login] \/
     exists g, (new = [g] \/ new = [login; g]) /\
       req_method g = GET /\ req_url g = _base_url c ++ path /\
       req_params g = params /\
       truthy (dict_get (req_headers g) "auth") = true).

(** The expiry of the snapshot is absent, [None] or the Unix time in
    whole seconds of an instant of the years 1 to 9999. *)
Definition snapshot_expiry_storable (data : gmap string pyval) : Prop :=
  dict_get data CONF_TOKEN_EXPIRES_AT = PNone \/
  exists z, dict_get data CONF_TOKEN_EXPIRES_AT = PInt z /\
            MIN_TIMESTAMP <= z <= MAX_TIMESTAMP.

(** The classes of exception [datetime.fromtimestamp] raises on an integer
    outside the years 1 to 9999. *)
Definition range_error (e : exn) : Prop :=
  match e with
  | ValueError _ | OverflowError _ | OSError _ => True
  | _ => False
  end.

(** The expiry, if any, lies before the last second of the year 9999. *)
Definition expiry_before_last_second (c : HomGarClient) : Prop :=
  forall dt, _token_expires_at c = Some dt ->
    datetime_min <= dt < MAX_TIMESTAMP * SECOND.

(** A value [datetime.fromtimestamp] refuses. *)
Definition not_a_timestamp (v : pyval) : Prop :=
  match v with
  | PStr _ | PList _ | PDict _ => True
  | _ => False
  end.

(** A cloud whose login answer carries a token and a null lifetime. *)
Definition null_lifetime_world : world :=
  {| clock := fun _ => 1700000000000000; clock_reads := 0;
     server := fun _ =>
       Ok {| status := 200;
             json := Ok (PDict {[ "code" := PInt 0;
                                  "data" := PDict {[ "token" := PStr "T";
                                                     "tokenExpired" := PNone ]} ]}) |};
     sent := [] |}.

(** A cloud that answers every request with HTTP 200 and the given body. *)
Definition direct_world (now : datetime) (body : pyval) : world :=
  {| clock := fun _ => now; clock_reads := 0;
     server := fun _ => Ok {| status := 200; json := Ok body |};
     sent := [] |}.

(** What the flow retained for the next step. *)
Definition retained (f : HomGarConfigFlow) :=
  (ConfigFlow._area_code f, ConfigFlow._email f, ConfigFlow._password f,
   _homes f, _client f).

(** An exception neither [except] clause of step "user" matches. *)
Definition uncaught (e : exn) : Prop :=
  (forall msg, e <> HomGarApiError msg) /\ (forall msg, e <> ClientError msg).

(** The data of the entry the wizard creates from what the flow retained. *)
Definition entry_data_of (a e p : string) (hid : Z) (c : HomGarClient)
    (data : gmap string pyval) : Prop :=
  data !! CONF_AREA_CODE = Some (PStr a) /\
  data !! CONF_EMAIL = Some (PStr e) /\
  data !! CONF_PASSWORD = Some (PStr p) /\
  data !! CONF_HIDS = Some (PList [PInt hid]) /\
  data !! CONF_TOKEN = Some (_token c) /\
  data !! CONF_REFRESH_TOKEN = Some (_refresh_token c) /\
  data !! CONF_TOKEN_EXPIRES_AT
  = Some (match _token_expires_at c with
          | Some dt => PInt (timestamp_int dt)
          | None => PNone
          end).

(** [k] is [str(h["hid"])]. *)
Definition home_key cstr (h : pyval) (k : string) : Prop :=
  exists hid, py_getitem h "hid" = Ok hid /\ k = py_str cstr hid.

(** A cloud that accepts the login and then answers every request with the
    given body. *)
Definition cloud (body : pyval) : world :=
  {| clock := fun _ => 1700000000000000; clock_reads := 0;
     server := fun log =>
       match log with
       | [_] => Ok {| status := 200; json := Ok login_ok_body |}
       | _ => Ok {| status := 200; json := Ok body |}
       end;
     sent := [] |}.

(** Answers of the home listing: one home, and none. *)
Definition one_home_body : pyval :=
  PDict {[ "code" := PInt 0;
           "data" := PList [PDict {[ "hid" := PInt 7; "homeName" := PStr "Garden" ]}] ]}.

Definition no_homes_body : pyval :=
  PDict {[ "code" := PInt 0; "data" := PList [] ]}.

(** A cloud whose login answer carries no token. *)
Definition tokenless_world : world :=
  {| clock := fun _ => 1700000000000000; clock_reads := 0;
     server := fun _ =>
       Ok {| status := 200;
             json := Ok (PDict {[ "code" := PInt 0; "data" := PDict ∅ ]}) |};
     sent := [] |}.

(** The wizard after step "user" has advanced on one listed home, and the
    submission that selects it. *)
Definition at_home_selection : wstate :=
  snd (async_step_user (fun s => s) (fun _ => "") (Some sample_input)
         (wizard_state (cloud one_home_body) [])).

Definition home_seven : SelectInput := {| hids := "7" |}.

Tactic Notation "explode" ident(b) integer(n) :=
  do n (destruct b as [|? b]; [exfalso; simpl in *; lia|]).

(** ** Framing *)

Lemma prefix_10_split (raw : string) :
  String.prefix "10#" raw = true -> raw = "10#" ++ str_drop 3 raw.
Proof.
  intros H. apply String.prefix_correct in H.
  destruct raw as [|a [|b [|c r]]]; simpl in H; try discriminate.
  injection H as -> -> -> _. reflexivity.
Qed.

Lemma odd_mod (n : nat) : Nat.Odd n -> (Z.of_nat n mod 2 =? 0) = false.
Proof.
  intros [m ->]. apply Z.eqb_neq.
  replace (Z.of_nat (2 * m + 1)) with (1 + Z.of_nat m * 2) by lia.
  rewrite Z.mod_add by lia. discriminate.
Qed.

Lemma even_mod (n : nat) : (Z.of_nat n mod 2 =? 0) = true -> Nat.Even n.
Proof.
  intros H%Z.eqb_eq. apply Z.mod_divide in H; [|lia]. destruct H as [k Hk].
  exists (Z.to_nat k). lia.
Qed.

Lemma framing_rejects (raw : string) :
  (forall rest, raw <> "10#" ++ rest) \/
  (exists rest, raw = "10#" ++ rest /\ Nat.Odd (String.length rest)) ->
  InvalidFormat (_parse_homgar_payload raw).
Proof.
  intros H. unfold _parse_homgar_payload.
  destruct (String.prefix "10#" raw) eqn:Hp.
  - destruct H as [H | (rest & -> & Hodd)].
    + exfalso. eapply H, prefix_10_split, Hp.
    + change (str_drop 3 ("10#" ++ rest)) with rest.
      change (String.eqb ("10#" ++ rest) "") with false.
      rewrite (odd_mod _ Hodd). by eexists.
  - rewrite orb_true_r. by eexists.
Qed.

(** C3: a payload that does not start with the prefix 10#, and a payload
    whose remainder after 10# has odd length, makes each of the three
    decoders (moisture-simple, moisture-full, rain) fail with the
    invalid-format error instead of returning a reading. *)
Theorem decoders_reject_bad_framing (raw : string) :
  (forall rest, raw <> "10#" ++ rest) \/
  (exists rest, raw = "10#" ++ rest /\ Nat.Odd (String.length rest)) ->
  InvalidFormat (decode_moisture_simple raw) /\
  InvalidFormat (decode_moisture_full raw) /\
  InvalidFormat (decode_rain raw).
Proof.
  intros H. destruct (framing_rejects raw H) as [msg E].
  unfold decode_moisture_simple, decode_moisture_full, decode_rain.
  rewrite E. rsimpl. repeat split; by eexists.
Qed.

Lemma decoders_reject_bad_framing_witness :
  (InvalidFormat (decode_moisture_simple "11#E105") /\
   InvalidFormat (decode_moisture_full "11#E105") /\
   InvalidFormat (decode_rain "11#E105")) /\
  (InvalidFormat (decode_moisture_simple "10#E10") /\
   InvalidFormat (decode_moisture_full "10#E10") /\
   InvalidFormat (decode_rain "10#E10")).
Proof.
  split.
  - apply (decoders_reject_bad_framing "11#E105"). left. intros rest. discriminate.
  - apply (decoders_reject_bad_framing "10#E10"). right.
    exists "E10". split; [reflexivity | exists 1%nat; reflexivity].
Defined.

(** The part of the framing contract that holds: one entry per slice of
    two characters, in order of appearance. *)
Lemma parse_slices_length (s : string) :
  slices_counted s /\ (forall c, slices_counted (String c s)).
Proof.
  induction s as [|c2 rest [IH1 IH2]].
  - split; [intros out [= <-]; simpl; lia|].
    intros c out. simpl. destruct (py_int 16 _); simpl; [|discriminate].
    intros [= <-]. simpl. lia.
  - split; [apply IH2|].
    intros c1 out. simpl. destruct (py_int 16 _); simpl; [|discriminate].
    destruct (parse_slices rest) as [o|] eqn:E; simpl; [|discriminate].
    intros [= <-]. specialize (IH1 o E). simpl. lia.
Qed.

Lemma parse_entry_count (raw : string) (out : list Z) :
  _parse_homgar_payload raw = Ok out ->
  exists rest, raw = "10#" ++ rest /\ String.length rest = (2 * length out)%nat.
Proof.
  unfold _parse_homgar_payload.
  destruct (String.prefix "10#" raw) eqn:Hp; [|by rewrite orb_true_r].
  apply prefix_10_split in Hp. remember (str_drop 3 raw) as rest eqn:Hr. clear Hr.
  destruct (String.eqb raw ""); [discriminate|]. cbn [orb negb].
  destruct (Z.of_nat _ mod 2 =? 0) eqn:Hm; [|discriminate]. cbn [negb].
  intros H. exists rest. split; [done|].
  apply (proj1 (parse_slices_length _)) in H. apply even_mod in Hm.
  destruct Hm as [k Hk]. lia.
Qed.

Lemma parse_outcome (raw : string) :
  InvalidFormat (_parse_homgar_payload raw) \/
  exists out, _parse_homgar_payload raw = Ok out.
Proof.
  assert (Hint : forall s, InvalidFormat (py_int 16 s) \/ exists v, py_int 16 s = Ok v).
  { intros s. unfold py_int, InvalidFormat.
    repeat case_match; first [left; eexists; reflexivity | right; eexists; reflexivity]. }
  assert (Hs : forall s,
    (InvalidFormat (parse_slices s) \/ exists out, parse_slices s = Ok out) /\
    (forall c, InvalidFormat (parse_slices (String c s)) \/
               exists out, parse_slices (String c s) = Ok out)).
  { induction s as [|c2 rest [IH1 IH2]].
    - split; [right; by eexists|]. intros c. simpl.
      destruct (Hint (String c "")) as [[m ->] | [v ->]]; rsimpl;
        [left | right]; by eexists.
    - split; [apply IH2|]. intros c1. simpl.
      destruct (Hint (String c1 (String c2 ""))) as [[m ->] | [v ->]]; rsimpl;
        [left; by eexists|].
      destruct IH1 as [[m ->] | [o ->]]; rsimpl; [left | right]; by eexists. }
  unfold _parse_homgar_payload.
  destruct (_ || _); [left; by eexists|].
  destruct (negb _); [left; by eexists|]. apply (proj1 (Hs _)).
Qed.

(** C4: the framing of the payload 10#-F succeeds and yields the entry -15,
    which is no unsigned 8-bit value: [int(_, 16)] accepts a sign. *)
Theorem parse_negative_entry :
  _parse_homgar_payload "10#-F" = Ok [-15] /\ ~ (0 <= -15 <= 255).
Proof. split; [vm_compute; reflexivity | lia]. Qed.

(** ** Moisture decoders *)

Lemma item_lookup (b : list Z) (i : nat) (v : Z) :
  b !! i = Some v -> item b i = Ok v.
Proof. unfold item. by intros ->. Qed.

Lemma le16_inv (b : list Z) (i : nat) (v : Z) : _le16 b i = Ok v -> le16_of b i v.
Proof.
  unfold _le16, item, le16_of. replace (i + 1)%nat with (S i) by lia.
  destruct (b !! i) as [lo|]; [|discriminate].
  destruct (b !! S i) as [hi|]; [|discriminate].
  intros [= <-]. eauto.
Qed.

(** C5: on a payload framed as E1 05 00 DC 01 88 2A 00 01 the
    moisture-simple decoder yields RSSI 5, moisture 42 and battery/status
    code 1; on a payload of at least 9 framed bytes whose byte 5 is not
    0x88 it fails with the invalid-format error. *)
Theorem moisture_simple_decoding (raw : string) (b : list Z) :
  _parse_homgar_payload raw = Ok b ->
  (b = [0xE1; 0x05; 0x00; 0xDC; 0x01; 0x88; 0x2A; 0x00; 0x01] ->
   exists r, decode_moisture_simple raw = Ok r /\
     ms_rssi_dbm r = 5 /\ ms_moisture_percent r = 42 /\
     ms_battery_status_code r = 1 /\ ms_raw_bytes r = b) /\
  ((9 <= length b)%nat -> b !! 5%nat <> Some 0x88 ->
   InvalidFormat (decode_moisture_simple raw)).
Proof.
  intros Hparse. unfold decode_moisture_simple. rewrite Hparse. split.
  - intros ->. eexists. split; [reflexivity|]. by repeat split.
  - intros Hlen Hb5. rsimpl.
    destruct (Nat.ltb_spec (length b) 9) as [?|_]; [lia|].
    destruct (lookup_lt_is_Some_2 b 5) as [v Hv]; [lia|].
    rewrite (item_lookup _ _ _ Hv). simpl.
    destruct (Z.eqb_spec v 0x88) as [->|_]; [done|]. by eexists.
Qed.

Lemma moisture_simple_decoding_witness :
  (exists r, decode_moisture_simple "10#E10500DC01882A0001" = Ok r /\
     ms_rssi_dbm r = 5 /\ ms_moisture_percent r = 42 /\
     ms_battery_status_code r = 1 /\
     ms_raw_bytes r = [0xE1; 0x05; 0x00; 0xDC; 0x01; 0x88; 0x2A; 0x00; 0x01]) /\
  InvalidFormat (decode_moisture_simple "10#E10500DC01852A0001").
Proof.
  split.
  - apply (moisture_simple_decoding "10#E10500DC01882A0001" _ eq_refl). reflexivity.
  - apply (moisture_simple_decoding "10#E10500DC01852A0001" _ eq_refl).
    + simpl. lia.
    + discriminate.
Defined.

(** C6: for a decoded moisture-full payload the temperature in Celsius is
    (raw/10 - 32) / 1.8 with raw the little-endian read at bytes 6-7, and
    the illuminance in lux is the little-endian read at bytes 11-12 divided
    by 10; raw 752 gives 24.0 degrees and raw 1500 gives 150.0 lux. *)
Theorem moisture_full_conversions (raw : string) (r : MoistureFull) :
  decode_moisture_full raw = Ok r ->
  _parse_homgar_payload raw = Ok (mf_raw_bytes r) /\
  le16_of (mf_raw_bytes r) 6 (mf_temperature_f10 r) /\
  mf_temperature_c r
    = ((float_of_int (mf_temperature_f10 r) / 10.0 - 32.0) / 1.8)%float /\
  le16_of (mf_raw_bytes r) 11 (mf_illuminance_raw10 r) /\
  mf_illuminance_lux r = (float_of_int (mf_illuminance_raw10 r) / 10.0)%float /\
  _f10_to_c 752 = 24.0%float /\
  (float_of_int 1500 / 10.0)%float = 150.0%float.
Proof.
  unfold decode_moisture_full.
  destruct (_parse_homgar_payload raw) as [b|]; rsimpl; [|discriminate].
  destruct (length b <? 16)%nat; [discriminate|].
  destruct (item b 1); rsimpl; [|discriminate].
  destruct (_le16 b 6) as [t|] eqn:Et; rsimpl; [|discriminate].
  destruct (item b 8) as [b8|]; rsimpl; [|discriminate].
  destruct (negb (b8 =? 136)); [discriminate|].
  destruct (item b 9); rsimpl; [|discriminate].
  destruct (item b 10) as [b10|]; rsimpl; [|discriminate].
  destruct (negb (b10 =? 198)); [discriminate|].
  destruct (_le16 b 11) as [l|] eqn:El; rsimpl; [|discriminate].
  destruct (item b 14); rsimpl; [|discriminate].
  destruct (item b 15); rsimpl; [|discriminate].
  intros [= <-]. cbn.
  repeat split; auto using le16_inv.
Qed.

Lemma moisture_full_conversions_witness :
  match decode_moisture_full "10#E10500DC0185F002882AC6DC0500FF0F" with
  | Ok r =>
      mf_temperature_f10 r = 752 /\ mf_temperature_c r = 24.0%float /\
      mf_illuminance_raw10 r = 1500 /\ mf_illuminance_lux r = 150.0%float /\
      le16_of (mf_raw_bytes r) 6 752 /\ le16_of (mf_raw_bytes r) 11 1500
  | Raise _ => False
  end.
Proof.
  destruct (decode_moisture_full "10#E10500DC0185F002882AC6DC0500FF0F")
    as [r|e] eqn:E; [|vm_compute in E; discriminate].
  destruct (moisture_full_conversions _ r E) as (_ & Ht & _ & Hl & _).
  vm_compute in E. injection E as <-. by repeat split.
Defined.

(** ** Dates and timestamps *)

Ltac unfold_range :=
  unfold is_datetime, datetime_min, datetime_max, MIN_TIMESTAMP, MAX_TIMESTAMP,
    TIME_T_MIN, TIME_T_MAX, GMTIME_MIN, GMTIME_MAX, timedelta_minutes,
    timedelta_seconds, MINUTE, SECOND in *.

Lemma datetime_add_ok (dt : datetime) (delta : timedelta) :
  is_datetime (dt + delta) -> datetime_add dt delta = Ok (dt + delta).
Proof.
  intros [H1 H2]. unfold datetime_add.
  destruct (Z.leb_spec datetime_min (dt + delta)); [|lia].
  destruct (Z.leb_spec (dt + delta) datetime_max); [done|lia].
Qed.

Lemma datetime_add_inv (dt : datetime) (delta : timedelta) (r : datetime) :
  datetime_add dt delta = Ok r -> r = dt + delta /\ is_datetime r.
Proof.
  unfold datetime_add, is_datetime.
  destruct (Z.leb_spec datetime_min (dt + delta)); [|discriminate].
  destruct (Z.leb_spec (dt + delta) datetime_max); [|discriminate].
  intros [= <-]. lia.
Qed.

Lemma datetime_add_overflow (dt : datetime) (delta : timedelta) (e : exn) :
  datetime_add dt delta = Raise e ->
  (exists msg, e = OverflowError msg) /\ ~ is_datetime (dt + delta).
Proof.
  unfold datetime_add, is_datetime.
  destruct (Z.leb_spec datetime_min (dt + delta));
    [destruct (Z.leb_spec (dt + delta) datetime_max); [discriminate|]|];
    intros [= <-]; (split; [by eexists | lia]).
Qed.

Lemma datetime_sub_ok (dt : datetime) (delta : timedelta) :
  is_datetime (dt - delta) -> datetime_sub dt delta = Ok (dt - delta).
Proof. intros H. unfold datetime_sub. by rewrite datetime_add_ok. Qed.

Lemma fromtimestamp_in_range (z : Z) :
  MIN_TIMESTAMP <= z <= MAX_TIMESTAMP -> fromtimestamp (PInt z) = Ok (z * SECOND).
Proof.
  intros H. unfold fromtimestamp, fromtimestamp_int, utc_from_timet_and_us.
  destruct (Z.ltb_spec z TIME_T_MIN); [unfold_range; lia|].
  destruct (Z.ltb_spec TIME_T_MAX z); [unfold_range; lia|].
  destruct (Z.ltb_spec z GMTIME_MIN); [unfold_range; lia|].
  destruct (Z.ltb_spec GMTIME_MAX z); [unfold_range; lia|].
  destruct (Z.ltb_spec z MIN_TIMESTAMP); [lia|].
  destruct (Z.ltb_spec MAX_TIMESTAMP z); [lia|].
  cbn [orb]. by rewrite Z.add_0_r.
Qed.

Lemma fromtimestamp_out_of_range (z : Z) :
  ~ (MIN_TIMESTAMP <= z <= MAX_TIMESTAMP) ->
  exists e, fromtimestamp (PInt z) = Raise e /\ range_error e.
Proof.
  intros H. unfold fromtimestamp, fromtimestamp_int, utc_from_timet_and_us.
  destruct (_ || _); [by eexists|].
  destruct (_ || _); [by eexists|].
  destruct (Z.ltb_spec z MIN_TIMESTAMP); [by eexists|].
  destruct (Z.ltb_spec MAX_TIMESTAMP z); [by eexists|]. lia.
Qed.

Lemma log2_ratio_le (a d : Z) : log2_ratio a d <= Z.log2 a - Z.log2 d.
Proof. unfold log2_ratio. destruct (if 0 <=? _ then _ else _); lia. Qed.

Lemma round_half_even_cases (n d : Z) :
  0 < d ->
  round_half_even n d = n / d \/
  (round_half_even n d = n / d + 1 /\ 0 < n mod d).
Proof.
  intros Hd. unfold round_half_even.
  pose proof (Z.mod_pos_bound n d Hd).
  destruct (d <? 2 * (n mod d)) eqn:E1; cbn [orb].
  - right. split; [done|]. apply Z.ltb_lt in E1. lia.
  - destruct (2 * (n mod d) =? d) eqn:E2; cbn [andb]; [|by left].
    destruct (Z.odd (n / d)); [|by left].
    right. split; [done|]. apply Z.eqb_eq in E2. lia.
Qed.

(** A count of microseconds, divided by 10 ** 6 with [k] more bits than the
    integer part has and then truncated, is less than a second away. *)
Lemma round_trunc_near (a k : Z) :
  0 <= a -> 0 < k ->
  let z := round_half_even (a * 2 ^ k) SECOND / 2 ^ k in
  0 <= z /\ Z.abs (z * SECOND - a) < SECOND.
Proof.
  intros Ha Hk z. unfold SECOND in *.
  assert (HP : 0 < 2 ^ k) by (apply Z.pow_pos_nonneg; lia).
  set (P := 2 ^ k) in *. set (d := 1000000) in *.
  assert (Hd : 0 < d) by (unfold d; lia).
  pose proof (Z.div_mod (a * P) d ltac:(lia)) as Hq.
  pose proof (Z.mod_pos_bound (a * P) d Hd) as Hr.
  assert (Hq0 : 0 <= (a * P) / d) by (apply Z.div_pos; nia).
  pose proof (Z.div_mod (round_half_even (a * P) d) P ltac:(lia)) as Hz.
  pose proof (Z.mod_pos_bound (round_half_even (a * P) d) P HP) as Hzr.
  fold z in Hz.
  destruct (round_half_even_cases (a * P) d Hd) as [Hm | [Hm Hpos]];
    rewrite Hm in Hz, Hzr;
    set (q := (a * P) / d) in *; set (r := (a * P) mod d) in *;
    set (t := _ mod P) in *;
    (assert (0 <= z) by nia); (split; [done|]); apply Z.abs_lt; split; nia.
Qed.

(** [int(dt.timestamp())] is less than a second away from [dt]: the
    division by 10 ** 6 is rounded to binary64, which can reach the next
    whole second, and the result is truncated. *)
Lemma timestamp_int_near (dt : datetime) :
  is_datetime dt -> Z.abs (timestamp_int dt * SECOND - dt) < SECOND.
Proof.
  intros [Hlo Hhi]. unfold timestamp_int, timestamp, round_ratio.
  destruct (Z.eqb_spec dt 0) as [->|Hne]; [vm_compute; reflexivity|].
  set (a := Z.abs dt).
  assert (Ha : 0 < a < 2 ^ 58) by (unfold a; unfold_range; lia).
  assert (Hl : Z.log2 a < 58) by (apply Z.log2_lt_pow2; lia).
  pose proof (log2_ratio_le a SECOND) as HL.
  change (Z.log2 SECOND) with 19 in HL.
  set (e := Z.max (log2_ratio a SECOND - 52) (-1074)) in *.
  assert (He : e < 0) by lia.
  rewrite (Z.max_l 0 e), (Z.max_r 0 (- e)) by lia.
  rewrite Z.pow_0_r, Z.mul_1_r.
  unfold int_of_float. cbn [exponent mantissa].
  destruct (Z.leb_spec 0 e) as [|_]; [lia|].
  destruct (round_trunc_near a (- e)) as [Hz0 Hz]; [lia | lia |].
  set (m := round_half_even (a * 2 ^ (- e)) SECOND) in *.
  assert (HP : 0 < 2 ^ (- e)) by (apply Z.pow_pos_nonneg; lia).
  assert (Hm : 0 <= m).
  { assert (0 <= (a * 2 ^ (- e)) / SECOND) by (apply Z.div_pos; unfold SECOND; nia).
    destruct (round_half_even_cases (a * 2 ^ (- e)) SECOND) as [E | [E _]];
      [done | | ]; fold m in E; lia. }
  destruct (Z.sgn_spec dt) as [[Hs ->] | [[Hs _] | [Hs ->]]]; [|lia|].
  - rewrite Z.mul_1_l. rewrite Z.quot_div_nonneg by lia.
    replace dt with a by (unfold a; lia). exact Hz.
  - replace (-1 * m) with (- m) by lia.
    rewrite Z.quot_opp_l by lia. rewrite Z.quot_div_nonneg by lia.
    replace dt with (- a) by (unfold a; lia).
    replace (- (m / 2 ^ (- e)) * SECOND - - a)
      with (- (m / 2 ^ (- e) * SECOND - a)) by lia.
    rewrite Z.abs_opp. exact Hz.
Qed.

(** On a whole number of seconds the export is exact. *)
Lemma timestamp_int_whole (s : Z) :
  MIN_TIMESTAMP <= s <= MAX_TIMESTAMP -> timestamp_int (s * SECOND) = s.
Proof.
  intros Hs. pose proof (timestamp_int_near (s * SECOND)) as H.
  unfold_range. specialize (H ltac:(lia)). lia.
Qed.

(** In the last second of the year 9999 the rounding can reach the year
    10000, which [fromtimestamp] refuses. *)
Lemma timestamp_int_last_second :
  is_datetime datetime_max /\
  timestamp_int datetime_max = MAX_TIMESTAMP + 1 /\
  fromtimestamp (PInt (timestamp_int datetime_max))
  = Raise (ValueError "year is out of range").
Proof. split; [unfold_range; lia|]. split; vm_compute; reflexivity. Qed.

(** The server's [ts] in milliseconds goes through a [float]: the stored
    instant can be off by a microsecond. *)
Lemma fromtimestamp_div_1000_rounds :
  fromtimestamp_div_1000 (PInt 9999999999999) = Ok 9999999999999001 /\
  fromtimestamp_div_1000 (PInt 1700000000123) = Ok 1700000000123000.
Proof. split; vm_compute; reflexivity. Qed.

(** ** Token validity and login *)

Lemma token_valid_eq (w : world) (c : HomGarClient) :
  _token_valid (w, c) =
    match truthy (_token c), _token_expires_at c with
    | true, Some expires_at =>
        match datetime_sub expires_at (timedelta_minutes 5) with
        | Ok limit => (Ok (clock w (clock_reads w) <? limit), (tick w, c))
        | Raise e => (Raise e, (tick w, c))
        end
    | _, _ => (Ok false, (w, c))
    end.
Proof.
  unfold _token_valid. msimpl.
  destruct (truthy (_token c)), (_token_expires_at c); reflexivity.
Qed.

Lemma token_valid_unset (w : world) (c : HomGarClient) :
  truthy (_token c) = false \/ _token_expires_at c = None ->
  _token_valid (w, c) = (Ok false, (w, c)).
Proof.
  intros Hu. rewrite token_valid_eq.
  destruct Hu as [-> | ->]; [done|]. by destruct (truthy _).
Qed.

(** With an expiry in the first five minutes of the year 1 the validity
    check reads the clock and raises [OverflowError]. *)
Lemma token_valid_overflow (w : world) (c : HomGarClient) (expires_at : datetime) :
  token_held c -> _token_expires_at c = Some expires_at ->
  expires_at < datetime_min + timedelta_minutes 5 ->
  exists msg, _token_valid (w, c) = (Raise (OverflowError msg), (tick w, c)).
Proof.
  intros Htok Hexp Hlt. rewrite token_valid_eq, Htok, Hexp.
  destruct (datetime_sub _ _) as [r|e] eqn:E.
  - apply datetime_add_inv in E as [-> [? _]]. unfold_range. lia.
  - apply datetime_add_overflow in E as [[msg ->] _]. by eexists.
Qed.

(** Whatever the cloud answers, a login sends exactly the login request. *)
Lemma login_sent md5 (w : world) (c : HomGarClient) :
  performs_login md5 (w, c) (_login md5 (w, c)).
Proof.
  unfold performs_login, requests_after, _login. msimpl.
  repeat case_match; simplify_eq; reflexivity.
Qed.

Lemma app_one_neq {A} (l : list A) (x : A) : (l ++ [x])%list <> l.
Proof.
  intros H. apply (f_equal length) in H. rewrite length_app in H. simpl in H. lia.
Qed.

(** C1: for a client holding a token and an expiry, ensure-logged-in
    returns without a login exactly when the current time is strictly
    before the expiry minus 5 minutes, and logs in otherwise; an expiry of
    now + 5 minutes or less gives a login, an expiry of now + 5 minutes and
    1 second gives none.  The expiry is a [datetime] from which 5 minutes
    can be subtracted: one of the first five minutes of the year 1 makes
    the subtraction itself raise, see [token_valid_overflow]. *)
Theorem ensure_logged_in_margin md5 (w : world) (c : HomGarClient)
    (expires_at : datetime) :
  token_held c ->
  _token_expires_at c = Some expires_at ->
  is_datetime expires_at ->
  datetime_min + timedelta_minutes 5 <= expires_at ->
  let now := clock w (clock_reads w) in
  let out := ensure_logged_in md5 (w, c) in
  (returns_without_login (w, c) out <-> now < expires_at - timedelta_minutes 5) /\
  (performs_login md5 (w, c) out <-> expires_at - timedelta_minutes 5 <= now) /\
  (expires_at - timedelta_minutes 5 <= now -> out = _login md5 (tick w, c)) /\
  (expires_at <= now + timedelta_minutes 5 -> performs_login md5 (w, c) out) /\
  (expires_at = now + timedelta_minutes 5 + timedelta_seconds 1 ->
   returns_without_login (w, c) out).
Proof.
  intros Htok Hexp Hdt Hmin now out.
  assert (Hsub : datetime_sub expires_at (timedelta_minutes 5)
                 = Ok (expires_at - timedelta_minutes 5)).
  { apply datetime_sub_ok. unfold_range. lia. }
  assert (Hout : out = if now <? expires_at - timedelta_minutes 5
                       then (Ok tt, (tick w, c)) else _login md5 (tick w, c)).
  { unfold out, ensure_logged_in. msimpl. rewrite token_valid_eq, Htok, Hexp, Hsub.
    fold now. by destruct (now <? _). }
  assert (Hyes : now < expires_at - timedelta_minutes 5 ->
                 returns_without_login (w, c) out /\ ~ performs_login md5 (w, c) out).
  { intros Hlt. rewrite Hout.
    destruct (Z.ltb_spec now (expires_at - timedelta_minutes 5)); [|lia].
    split; [done|]. unfold performs_login, requests_after. simpl.
    intros E. symmetry in E. by apply app_one_neq in E. }
  assert (Hno : expires_at - timedelta_minutes 5 <= now ->
                out = _login md5 (tick w, c) /\ performs_login md5 (w, c) out /\
                ~ returns_without_login (w, c) out).
  { intros Hge. rewrite Hout.
    destruct (Z.ltb_spec now (expires_at - timedelta_minutes 5)); [lia|].
    split; [done|].
    assert (Hs : performs_login md5 (w, c) (_login md5 (tick w, c)))
      by apply (login_sent md5 (tick w) c).
    split; [done|]. intros (_ & E & _). rewrite Hs in E. by apply app_one_neq in E. }
  refine (conj (conj _ _) (conj (conj _ _) (conj _ (conj _ _)))).
  - intros Hr. destruct (Z.lt_ge_cases now (expires_at - timedelta_minutes 5)); [done|].
    destruct (Hno H) as (_ & _ & Hn). exfalso. by apply Hn.
  - intros H. by destruct (Hyes H).
  - intros Hp. destruct (Z.lt_ge_cases now (expires_at - timedelta_minutes 5)); [|done].
    destruct (Hyes H) as (_ & Hn). exfalso. by apply Hn.
  - intros H. by destruct (Hno H) as (_ & ? & _).
  - intros H. by destruct (Hno H).
  - intros H. destruct Hno as (_ & ? & _); [lia | done].
  - intros H. destruct Hyes as [? _]; [|done].
    unfold timedelta_seconds, SECOND in H. lia.
Qed.

Lemma ensure_logged_in_margin_witness :
  returns_without_login
    (frozen_world 1000000, client_with (PStr "tok") (Some 302000000))
    (ensure_logged_in (fun s => s)
       (frozen_world 1000000, client_with (PStr "tok") (Some 302000000))) /\
  performs_login (fun s => s)
    (frozen_world 1000000, client_with (PStr "tok") (Some 301000000))
    (ensure_logged_in (fun s => s)
       (frozen_world 1000000, client_with (PStr "tok") (Some 301000000))).
Proof.
  split.
  - apply (ensure_logged_in_margin (fun s => s) (frozen_world 1000000)
             (client_with (PStr "tok") (Some 302000000)) 302000000);
      [reflexivity | reflexivity | unfold_range; lia | unfold_range; lia
      | reflexivity].
  - apply (ensure_logged_in_margin (fun s => s) (frozen_world 1000000)
             (client_with (PStr "tok") (Some 301000000)) 301000000);
      [reflexivity | reflexivity | unfold_range; lia | unfold_range; lia
      | vm_compute; discriminate].
Defined.

(** An empty string is no token: the client logs in although the expiry is
    far ahead. *)
Lemma empty_token_is_not_held md5 (w : world) (expires_at : datetime) :
  ensure_logged_in md5 (w, client_with (PStr "") (Some expires_at))
  = _login md5 (w, client_with (PStr "") (Some expires_at)).
Proof. unfold ensure_logged_in. msimpl. by rewrite token_valid_unset by (by left). Qed.


(** A snapshot without expiry leaves the expiry of the client it is
    restored into as it was: unset for a new client, as in
    [async_setup_entry]. *)
Lemma restore_without_expiry (w : world) (c : HomGarClient)
    (data : gmap string pyval) :
  dict_get data CONF_TOKEN_EXPIRES_AT = PNone ->
  restore_tokens data (w, c)
  = (Ok tt, (w, set_refresh_token (dict_get data CONF_REFRESH_TOKEN)
                  (set_token (dict_get data CONF_TOKEN) c))).
Proof. intros H. unfold restore_tokens. msimpl. by rewrite H. Qed.



(** ** Export and restore *)

Lemma export_tokens_eq (w : world) (c : HomGarClient) :
  export_tokens (w, c) = (Ok (snapshot_of c), (w, c)).
Proof. reflexivity. Qed.

Lemma snapshot_lookup (c : HomGarClient) :
  snapshot_of c !! CONF_TOKEN = Some (_token c) /\
  snapshot_of c !! CONF_REFRESH_TOKEN = Some (_refresh_token c) /\
  snapshot_of c !! CONF_TOKEN_EXPIRES_AT =
    Some (match _token_expires_at c with
          | Some dt => PInt (timestamp_int dt)
          | None => PNone
          end).
Proof. repeat split. Qed.

Lemma dict_get_lookup (d : gmap string pyval) (k : string) (v : pyval) :
  d !! k = Some v -> dict_get d k = v.
Proof. unfold dict_get, dict_get_default. by intros ->. Qed.

Lemma restore_tokens_eq (w : world) (c : HomGarClient) (data : gmap string pyval) :
  let c1 := set_refresh_token (dict_get data CONF_REFRESH_TOKEN)
              (set_token (dict_get data CONF_TOKEN) c) in
  restore_tokens data (w, c) =
    match dict_get data CONF_TOKEN_EXPIRES_AT with
    | PNone => (Ok tt, (w, c1))
    | ts =>
        match fromtimestamp ts with
        | Ok dt => (Ok tt, (w, set_token_expires_at (Some dt) c1))
        | Raise e => (Raise e, (w, c1))
        end
    end.
Proof.
  unfold restore_tokens. msimpl.
  destruct (dict_get data CONF_TOKEN_EXPIRES_AT); try reflexivity;
    by destruct (fromtimestamp _).
Qed.

(** C7, as the code has it: the export leaves the client and its
    surroundings as they were; the snapshot carries the token and the
    refresh token, and its expiry field is the absent value exactly when no
    expiry is held, otherwise the integer [int(expiry.timestamp())], a
    whole number of seconds since the epoch less than one second away from
    the expiry. *)
Theorem export_tokens_snapshot (w : world) (c : HomGarClient) :
  exists d : gmap string pyval,
    export_tokens (w, c) = (Ok d, (w, c)) /\
    d !! CONF_TOKEN = Some (_token c) /\
    d !! CONF_REFRESH_TOKEN = Some (_refresh_token c) /\
    (d !! CONF_TOKEN_EXPIRES_AT = Some PNone <-> _token_expires_at c = None) /\
    (forall dt, _token_expires_at c = Some dt ->
       d !! CONF_TOKEN_EXPIRES_AT = Some (PInt (timestamp_int dt)) /\
       (is_datetime dt -> Z.abs (timestamp_int dt * SECOND - dt) < SECOND)).
Proof.
  exists (snapshot_of c). destruct (snapshot_lookup c) as (Ht & Hr & He).
  split; [reflexivity|]. split; [done|]. split; [done|]. rewrite He. split.
  - destruct (_token_expires_at c); split; congruence.
  - intros dt ->. split; [done | apply timestamp_int_near].
Qed.

(** C7, as stated, fails for a client that holds a token and no expiry:
    the exported expiry is the absent value although a token is held. *)
Lemma export_expiry_counterexample :
  ~ expiry_absent_iff_no_token (frozen_world 0) bare_token_client.
Proof.
  intros H. destruct (H _ eq_refl) as [H1 _].
  apply H1; [vm_compute; reflexivity | reflexivity].
Qed.

(** The round trip keeps the token and the refresh token and replaces the
    expiry by the whole second the export wrote, provided that second is
    not beyond the year 9999. *)
Lemma roundtrip_expiry (w : world) (c : HomGarClient) :
  expiry_is_datetime c ->
  (forall dt, _token_expires_at c = Some dt -> timestamp_int dt <= MAX_TIMESTAMP) ->
  exists c', export_then_restore w c = Ok c' /\
    _token c' = _token c /\
    _refresh_token c' = _refresh_token c /\
    _token_expires_at c'
    = (fun dt => timestamp_int dt * SECOND) <$> _token_expires_at c.
Proof.
  intros Hdt Hmax. unfold export_then_restore. rewrite export_tokens_eq.
  destruct (snapshot_lookup c) as (Ht & Hr & He).
  rewrite restore_tokens_eq.
  rewrite (dict_get_lookup _ _ _ Ht), (dict_get_lookup _ _ _ Hr),
    (dict_get_lookup _ _ _ He).
  destruct (_token_expires_at c) as [dt|] eqn:Hd.
  - rewrite fromtimestamp_in_range.
    + eexists. split; [reflexivity|]. done.
    + split; [|by apply Hmax]. pose proof (timestamp_int_near dt (Hdt dt Hd)).
      specialize (Hdt dt Hd). unfold_range. lia.
  - eexists. split; [reflexivity|]. done.
Qed.

(** C2, as the code has it: when the expiry is a whole number of seconds
    (or unset), the client restored from the exported snapshot takes the
    same validity decision as the original at the same current time.  The
    expiry is a [datetime], an instant of the years 1 to 9999. *)
Theorem roundtrip_validity_whole_seconds (w : world) (c : HomGarClient) :
  whole_seconds c -> expiry_is_datetime c -> roundtrip_preserves_validity w c.
Proof.
  intros Hws Hdt.
  assert (Hexact : forall dt, _token_expires_at c = Some dt ->
                     timestamp_int dt * SECOND = dt).
  { intros dt E. specialize (Hws dt E). specialize (Hdt dt E).
    apply Z.div_exact in Hws; [|done].
    rewrite Hws at 1. rewrite (Z.mul_comm SECOND), timestamp_int_whole; [lia|].
    unfold_range. lia. }
  destruct (roundtrip_expiry w c Hdt) as (c' & E & Ht & _ & He).
  { intros dt Hd. specialize (Hexact dt Hd). specialize (Hdt dt Hd).
    unfold_range. lia. }
  exists c'. split; [done|]. unfold validity_decision.
  rewrite !token_valid_eq, Ht, He.
  destruct (truthy (_token c)); [|done].
  destruct (_token_expires_at c) as [dt|] eqn:Hd; [|done]. simpl.
  rewrite (Hexact dt eq_refl). by destruct (datetime_sub _ _).
Qed.

Lemma roundtrip_validity_whole_seconds_witness :
  roundtrip_preserves_validity (frozen_world 1699999700250000)
    (client_with (PStr "tok") (Some 1700000000000000)).
Proof.
  apply (roundtrip_validity_whole_seconds (frozen_world 1699999700250000)
           (client_with (PStr "tok") (Some 1700000000000000))).
  - intros dt [= <-]. reflexivity.
  - intros dt [= <-]. unfold_range. lia.
Defined.

(** C2, as stated, fails when the expiry has a fraction of a second: at a
    current time inside the cut-off fraction the original client is valid
    and the restored one is not. *)
Lemma roundtrip_counterexample :
  ~ roundtrip_preserves_validity (frozen_world 1699999700250000) subsecond_client.
Proof.
  intros (c' & E & H). vm_compute in E. injection E as <-.
  vm_compute in H. discriminate.
Qed.

(** ** The wizard, step "user" *)

Lemma configured_existsb (em : string) (entries : list ConfigEntry) :
  email_configured em entries ->
  existsb (has_unique_id (unique_id_for em)) entries = true.
Proof.
  intros (e & Hin & _ & Hid). apply existsb_exists. exists e.
  split; [by apply list_elem_of_In|]. unfold has_unique_id.
  by apply bool_decide_eq_true.
Qed.

Lemma key_free_existsb (em : string) (entries : list ConfigEntry) :
  key_free em entries ->
  existsb (has_unique_id (unique_id_for em)) entries = false.
Proof.
  intros Hfree. destruct (existsb _ _) eqn:E; [|done].
  apply existsb_exists in E as (e & Hin & He). apply list_elem_of_In in Hin.
  apply bool_decide_eq_true in He. by destruct (Hfree e Hin).
Qed.

Lemma singleton_marker_inj (a b : string) :
  ({[ "base" := a ]} : gmap string string) = {[ "base" := b ]} -> a = b.
Proof.
  intros H. apply (f_equal (fun m => m !! "base")) in H.
  rewrite !lookup_singleton_eq in H. congruence.
Qed.

(** Step "select_homes" leaves the flow, the entries and the surroundings
    as they were. *)
Lemma select_homes_keeps_state cstr (ui : option SelectInput) (s : wstate) :
  snd (async_step_select_homes cstr ui s) = s.
Proof.
  destruct s as [w entries [uid a e p h c]].
  unfold async_step_select_homes, attr. wsimpl. cbn [_homes _client _area_code _email _password].
  destruct h as [homes|]; wsimpl; [|done].
  destruct (home_options cstr homes); wsimpl; [|done].
  destruct ui as [sel|]; wsimpl; [|done].
  destruct (String.eqb (hids sel) ""); wsimpl; [done|].
  destruct (py_int 10 (hids sel)); wsimpl; [|done].
  destruct c as [c|]; wsimpl; [|done].
  rewrite export_tokens_eq. wsimpl.
  destruct a, e, p; wsimpl; done.
Qed.

(** The entry data of a create-entry result carries the email the flow
    retained. *)
Lemma select_homes_entry cstr (sel : SelectInput) (s s' : wstate) title data :
  async_step_select_homes cstr (Some sel) s = (Ok (CreateEntry title data), s') ->
  exists em, _email (w_flow s) = Some em /\ dict_get data CONF_EMAIL = PStr em.
Proof.
  destruct s as [w entries [uid a e p h c]].
  unfold async_step_select_homes, attr. wsimpl. cbn [_homes _client _area_code _email _password].
  destruct h as [homes|]; wsimpl; [|discriminate].
  destruct (home_options cstr homes); wsimpl; [|discriminate].
  destruct (String.eqb (hids sel) ""); wsimpl; [discriminate|].
  destruct (py_int 10 (hids sel)); wsimpl; [|discriminate].
  destruct c as [c|]; wsimpl; [|discriminate].
  rewrite export_tokens_eq. wsimpl.
  destruct a, e as [em|], p; wsimpl; try discriminate.
  intros [= _ <- _]. exists em. split; [done|].
  unfold dict_get, dict_get_default.
  rewrite lookup_union_r by reflexivity. reflexivity.
Qed.

(** When step "user" advances to the home selection, the flow holds the
    key of the submitted email and that email. *)
Lemma step_user_advances md5 cstr (s s1 : wstate) (ui : UserInput) schema errors :
  async_step_user md5 cstr (Some ui) s
    = (Ok (ShowForm "select_homes" schema errors), s1) ->
  unique_id (w_flow s1) = Some (unique_id_for (email ui)) /\
  _email (w_flow s1) = Some (email ui) /\
  w_entries s1 = w_entries s.
Proof.
  destruct s as [w entries f]. unfold async_step_user. wsimpl.
  fold (unique_id_for (email ui)).
  destruct (existsb _ _); [discriminate|].
  destruct (probe md5 _) as [[homes|e] [w' c']]; wsimpl.
  2: { destruct e; discriminate. }
  destruct (negb (truthy homes)); wsimpl; [discriminate|].
  unfold store. wsimpl.
  match goal with
  | |- async_step_select_homes _ _ ?st = _ -> _ =>
      pose proof (select_homes_keeps_state cstr None st) as Hk;
      destruct (async_step_select_homes cstr None st) as [r s']
  end.
  simpl in Hk. intros [= _ <-]. by subst s'.
Qed.

(** Hence an entry the wizard creates is an entry configured for the
    submitted email, in the sense of [email_configured]. *)
Lemma wizard_entry_keyed md5 cstr (s s1 s2 : wstate) (ui : UserInput)
    (sel : SelectInput) schema errors title data :
  async_step_user md5 cstr (Some ui) s
    = (Ok (ShowForm "select_homes" schema errors), s1) ->
  async_step_select_homes cstr (Some sel) s1 = (Ok (CreateEntry title data), s2) ->
  email_configured (email ui)
    (w_entries (host_finish (Ok (CreateEntry title data)) s2)).
Proof.
  intros (Hid & Hem & _)%step_user_advances H2.
  pose proof (select_homes_keeps_state cstr (Some sel) s1) as Hk.
  rewrite H2 in Hk. simpl in Hk. subst s2.
  apply select_homes_entry in H2 as (em & Hem' & Hdata).
  rewrite Hem in Hem'. injection Hem' as <-.
  eexists. split; [apply elem_of_app; right; apply list_elem_of_here|].
  split; [exact Hdata | exact Hid].
Qed.

(** C8: a submission of step "user" whose email belongs to a configured
    entry aborts with the already-configured signal; the surroundings of
    the client are untouched (no clock reading, no request: no login, no
    home listing) and the host is left with the entries it had. *)
Theorem step_user_already_configured md5 cstr (s : wstate) (ui : UserInput) :
  email_configured (email ui) (w_entries s) ->
  let out := async_step_user md5 cstr (Some ui) s in
  fst out = Raise (AbortFlow "already_configured") /\
  w_world (snd out) = w_world s /\
  w_entries (snd out) = w_entries s /\
  w_entries (host_finish (fst out) (snd out)) = w_entries s.
Proof.
  intros Hc%configured_existsb. destruct s as [w entries f]. simpl in Hc.
  unfold async_step_user. wsimpl.
  fold (unique_id_for (email ui)). rewrite Hc. done.
Qed.

Lemma step_user_already_configured_witness :
  fst (async_step_user (fun s => s) (fun _ => "") (Some sample_input)
         (wizard_state homes_down_world [sample_entry]))
  = Raise (AbortFlow "already_configured") /\
  w_world (snd (async_step_user (fun s => s) (fun _ => "") (Some sample_input)
                  (wizard_state homes_down_world [sample_entry])))
  = homes_down_world.
Proof.
  destruct (step_user_already_configured (fun s => s) (fun _ => "")
              (wizard_state homes_down_world [sample_entry]) sample_input)
    as (H1 & H2 & _).
  - exists sample_entry. split; [apply list_elem_of_here|].
    split; vm_compute; reflexivity.
  - split; [exact H1 | exact H2].
Defined.

(** C10: in step "user", with the account not yet configured, every
    [HomGarApiError] of the two awaited calls, whether the login or the
    home listing raised it, shows the form again with [auth_failed]; a
    network-transport error shows it with [cannot_connect], and nothing
    else does. *)
Theorem step_user_error_markers md5 cstr (s : wstate) (ui : UserInput) :
  key_free (email ui) (w_entries s) ->
  let client := Api.__init__ (area_code ui) (email ui) (password ui) in
  let attempt := fst (probe md5 (w_world s, client)) in
  let out := fst (async_step_user md5 cstr (Some ui) s) in
  (forall msg, attempt = Raise (HomGarApiError msg) ->
     out = Ok (user_form {[ "base" := "auth_failed" ]})) /\
  (forall msg, attempt = Raise (ClientError msg) ->
     out = Ok (user_form {[ "base" := "cannot_connect" ]})) /\
  (out = Ok (user_form {[ "base" := "cannot_connect" ]}) ->
     exists msg, attempt = Raise (ClientError msg)) /\
  (out = Ok (user_form {[ "base" := "auth_failed" ]}) ->
     exists msg, attempt = Raise (HomGarApiError msg)).
Proof.
  intros Hfree%key_free_existsb client attempt out.
  destruct s as [w entries f]. simpl in Hfree.
  unfold out, attempt, async_step_user. wsimpl.
  fold (unique_id_for (email ui)). rewrite Hfree. fold client.
  destruct (probe md5 (w, client)) as [[homes|e] [w' c']]; wsimpl.
  - destruct (negb (truthy homes)); wsimpl.
    + split_and!; try discriminate; intros [= H%singleton_marker_inj]; discriminate.
    + unfold store, async_step_select_homes, attr. wsimpl. cbn [_homes]. wsimpl.
      destruct (home_options cstr homes); wsimpl;
        unfold user_form, async_show_form; split_and!; intros; simplify_eq.
  - destruct e; split_and!; try discriminate; eauto;
      intros [= H%singleton_marker_inj]; discriminate.
Qed.

(** The login succeeds and the home listing answers HTTP 500; the login
    itself is refused with HTTP 401: both end in [auth_failed]. *)
Lemma step_user_error_markers_witness :
  fst (probe (fun s => s)
         (homes_down_world, Api.__init__ "27" "user@example.org" "secret"))
  = Raise (HomGarApiError "list_homes HTTP") /\
  fst (async_step_user (fun s => s) (fun _ => "") (Some sample_input)
         (wizard_state homes_down_world []))
  = Ok (user_form {[ "base" := "auth_failed" ]}) /\
  fst (probe (fun s => s)
         (login_refused_world, Api.__init__ "27" "user@example.org" "secret"))
  = Raise (HomGarApiError "Login HTTP") /\
  fst (async_step_user (fun s => s) (fun _ => "") (Some sample_input)
         (wizard_state login_refused_world []))
  = Ok (user_form {[ "base" := "auth_failed" ]}).
Proof.
  assert (Hfree : key_free (email sample_input) []).
  { intros e He. by apply not_elem_of_nil in He. }
  split; [vm_compute; reflexivity|]. split.
  - apply (proj1 (step_user_error_markers (fun s => s) (fun _ => "")
                    (wizard_state homes_down_world []) sample_input Hfree)
             "list_homes HTTP").
    vm_compute; reflexivity.
  - split; [vm_compute; reflexivity|].
    apply (proj1 (step_user_error_markers (fun s => s) (fun _ => "")
                    (wizard_state login_refused_world []) sample_input Hfree)
             "Login HTTP").
    vm_compute; reflexivity.
Defined.

(** * Further properties of the code *)

Lemma all_ascii_complete (c : ascii) : In c all_ascii.
Proof.
  unfold all_ascii. rewrite <- (ascii_nat_embedding c).
  apply in_map, in_seq. pose proof (nat_ascii_bounded c). lia.
Qed.

Lemma pairs_in_range :
  forallb (fun c1 => forallb (fun c2 =>
    slice_in_range (-15) 255 (String c1 (String c2 ""))) all_ascii) all_ascii = true.
Proof. vm_compute. reflexivity. Qed.

Lemma singles_in_range :
  forallb (fun c => slice_in_range (-15) 255 (String c "")) all_ascii = true.
Proof. vm_compute. reflexivity. Qed.

Lemma pair_range (c1 c2 : ascii) (v : Z) :
  py_int 16 (String c1 (String c2 "")) = Ok v -> -15 <= v <= 255.
Proof.
  intros H. pose proof pairs_in_range as P.
  rewrite forallb_forall in P. specialize (P c1 (all_ascii_complete c1)).
  rewrite forallb_forall in P. specialize (P c2 (all_ascii_complete c2)).
  unfold slice_in_range in P. rewrite H in P. lia.
Qed.

Lemma single_range (c : ascii) (v : Z) :
  py_int 16 (String c "") = Ok v -> -15 <= v <= 255.
Proof.
  intros H. pose proof singles_in_range as P.
  rewrite forallb_forall in P. specialize (P c (all_ascii_complete c)).
  unfold slice_in_range in P. rewrite H in P. lia.
Qed.

Lemma parse_slices_range (s : string) :
  (forall out, parse_slices s = Ok out -> Forall (fun b => -15 <= b <= 255) out) /\
  (forall c out, parse_slices (String c s) = Ok out ->
     Forall (fun b => -15 <= b <= 255) out).
Proof.
  induction s as [|c2 rest [IH1 IH2]].
  - split; [intros out [= <-]; constructor|].
    intros c out. simpl. destruct (py_int 16 _) as [v|] eqn:E; simpl; [|discriminate].
    intros [= <-]. repeat constructor; eapply single_range, E.
  - split; [apply IH2|].
    intros c1 out. simpl. destruct (py_int 16 _) as [v|] eqn:E; simpl; [|discriminate].
    destruct (parse_slices rest) as [o|] eqn:E'; simpl; [|discriminate].
    intros [= <-]. constructor; [eapply pair_range, E | by apply IH1].
Qed.

Lemma parse_range (raw : string) (out : list Z) :
  _parse_homgar_payload raw = Ok out -> Forall (fun b => -15 <= b <= 255) out.
Proof.
  unfold _parse_homgar_payload.
  destruct (_ || _); [discriminate|]. destruct (negb _); [discriminate|].
  apply parse_slices_range.
Qed.

(** X2: every entry the framing returns lies between -15 and 255. *)
Theorem parse_entries_bounded (raw : string) (out : list Z) :
  _parse_homgar_payload raw = Ok out -> Forall (fun b => -15 <= b <= 255) out.
Proof. apply parse_range. Qed.

Lemma hex_pairs_parse (upper : bool) :
  forallb (hex_pair_parses upper) (seqZ 0 256) = true.
Proof. destruct upper; vm_compute; reflexivity. Qed.

Lemma hex_pair_parse (upper : bool) (b : Z) :
  is_byte b ->
  py_int 16 (String (hex_char upper (b / 16))
               (String (hex_char upper (b mod 16)) "")) = Ok b.
Proof.
  intros Hb. pose proof (hex_pairs_parse upper) as P.
  rewrite forallb_forall in P. specialize (P b).
  unfold hex_pair_parses in P.
  destruct (py_int 16 _) as [v|].
  - f_equal. apply Z.eqb_eq, P, list_elem_of_In, elem_of_seqZ. unfold is_byte in Hb. lia.
  - discriminate P. apply list_elem_of_In, elem_of_seqZ. unfold is_byte in Hb. lia.
Qed.

Lemma parse_slices_hex (upper : bool) (bs : list Z) :
  Forall is_byte bs -> parse_slices (hex_encode upper bs) = Ok bs.
Proof.
  induction 1 as [|b bs Hb _ IH]; [reflexivity|].
  cbn [hex_encode parse_slices]. rewrite (hex_pair_parse upper b Hb), IH. reflexivity.
Qed.

Lemma hex_encode_length (upper : bool) (bs : list Z) :
  String.length (hex_encode upper bs) = (2 * length bs)%nat.
Proof. induction bs as [|b bs IH]; simpl; lia. Qed.

(** X1: the framing reads back any sequence of bytes written as 10#
    followed by two hexadecimal digits per byte, in upper or lower case. *)
Theorem parse_hex_encoded (upper : bool) (bs : list Z) :
  Forall is_byte bs ->
  _parse_homgar_payload ("10#" ++ hex_encode upper bs) = Ok bs.
Proof.
  intros Hbs. unfold _parse_homgar_payload.
  change (str_drop 3 ("10#" ++ hex_encode upper bs)) with (hex_encode upper bs).
  change (String.eqb ("10#" ++ hex_encode upper bs) "") with false.
  replace (String.prefix "10#" ("10#" ++ hex_encode upper bs)) with true.
  2:{ symmetry. apply String.prefix_correct. simpl. by destruct (hex_encode upper bs). }
  rewrite hex_encode_length.
  replace (Z.of_nat (2 * length bs) mod 2 =? 0) with true.
  2:{ symmetry. apply Z.eqb_eq. replace (Z.of_nat (2 * length bs)) with (Z.of_nat (length bs) * 2) by lia.
      apply Z.mod_mul. lia. }
  by apply parse_slices_hex.
Qed.

Lemma parse_hex_encoded_witness :
  _parse_homgar_payload ("10#" ++ hex_encode true [0xE1; 0x05; 0x00; 0xFF])
  = Ok [0xE1; 0x05; 0x00; 0xFF].
Proof.
  apply (parse_hex_encoded true [0xE1; 0x05; 0x00; 0xFF]).
  repeat constructor; unfold is_byte; lia.
Defined.

Lemma parse_entries_bounded_witness :
  Forall (fun b => -15 <= b <= 255) [-15; 255].
Proof. apply (parse_entries_bounded "10#-FFF" [-15; 255]). vm_compute. reflexivity. Defined.

Lemma parse_only_invalid raw : only_invalid_format (_parse_homgar_payload raw).
Proof.
  intros e He. destruct (parse_outcome raw) as [[m Hm] | [o Ho]]; rewrite He in *.
  - injection Hm as ->. by eexists.
  - discriminate.
Qed.

(** X3: whatever the input, a decoder that fails raises [ValueError]: the
    length checks keep every index in range. *)
Theorem decoders_fail_only_invalid_format (raw : string) :
  only_invalid_format (decode_moisture_simple raw) /\
  only_invalid_format (decode_moisture_full raw) /\
  only_invalid_format (decode_rain raw).
Proof.
  pose proof (parse_only_invalid raw) as Hp.
  unfold decode_moisture_simple, decode_moisture_full, decode_rain.
  destruct (_parse_homgar_payload raw) as [b|e0]; rsimpl.
  2:{ repeat split; intros e [= <-]; by apply Hp. }
  split; [|split]; intros e.
  - destruct (Nat.ltb_spec (length b) 9); [intros [= <-]; by eexists|].
    explode b 9. unfold item. simpl.
    repeat case_match; simplify_eq; intros [= <-] || discriminate; eexists; reflexivity.
  - destruct (Nat.ltb_spec (length b) 16); [intros [= <-]; by eexists|].
    explode b 16. unfold _le16, item. simpl.
    repeat case_match; simplify_eq; intros [= <-] || discriminate; eexists; reflexivity.
  - destruct (Nat.ltb_spec (length b) 24); [intros [= <-]; by eexists|].
    explode b 24. unfold marker_missing, _le16, item. simpl.
    repeat case_match; simplify_eq; intros [= <-] || discriminate; eexists; reflexivity.
Qed.

(** X4: a payload framed into fewer than 9, 16 or 24 bytes is refused by
    the moisture-simple, moisture-full or rain decoder. *)
Theorem decoders_reject_short_payloads (raw : string) (b : list Z) :
  _parse_homgar_payload raw = Ok b ->
  ((length b < 9)%nat -> InvalidFormat (decode_moisture_simple raw)) /\
  ((length b < 16)%nat -> InvalidFormat (decode_moisture_full raw)) /\
  ((length b < 24)%nat -> InvalidFormat (decode_rain raw)).
Proof.
  intros Hp. unfold decode_moisture_simple, decode_moisture_full, decode_rain.
  rewrite Hp. rsimpl.
  split; [|split]; intros Hlen.
  - destruct (Nat.ltb_spec (length b) 9); [by eexists | lia].
  - destruct (Nat.ltb_spec (length b) 16); [by eexists | lia].
  - destruct (Nat.ltb_spec (length b) 24); [by eexists | lia].
Qed.

Lemma decoders_reject_short_payloads_witness :
  InvalidFormat (decode_moisture_simple "10#") /\
  InvalidFormat (decode_moisture_full "10#E10500DC01882A0001") /\
  InvalidFormat (decode_rain "10#E10500DC01882A0001").
Proof.
  split; [|split].
  - apply (decoders_reject_short_payloads "10#" [] eq_refl). simpl. lia.
  - apply (decoders_reject_short_payloads "10#E10500DC01882A0001" _ eq_refl). simpl. lia.
  - apply (decoders_reject_short_payloads "10#E10500DC01882A0001" _ eq_refl). simpl. lia.
Defined.

Lemma byte_pairs_add :
  forallb (fun lo => forallb (byte_pair_adds lo) (seqZ 0 256)) (seqZ 0 256) = true.
Proof. vm_compute. reflexivity. Qed.

Lemma lor_bytes (lo hi : Z) :
  is_byte lo -> is_byte hi -> Z.lor lo (Z.shiftl hi 8) = lo + 256 * hi.
Proof.
  intros Hlo Hhi. pose proof byte_pairs_add as P.
  rewrite forallb_forall in P. specialize (P lo).
  rewrite forallb_forall in P. apply Z.eqb_eq, P.
  all: apply list_elem_of_In, elem_of_seqZ; unfold is_byte in *; lia.
Qed.

Lemma le16_word (b : list Z) (i : nat) (v : Z) :
  Forall is_byte b -> le16_of b i v ->
  word16 v /\ exists lo hi, b !! i = Some lo /\ b !! S i = Some hi /\ v = lo + 256 * hi.
Proof.
  intros Hb (lo & hi & Hlo & Hhi & ->). rewrite Forall_lookup in Hb.
  pose proof (Hb _ _ Hlo) as H1. pose proof (Hb _ _ Hhi) as H2.
  rewrite (lor_bytes lo hi H1 H2). split; [unfold word16, is_byte in *; lia | eauto].
Qed.

Lemma be16_word (b : list Z) (i : nat) (v : Z) :
  Forall is_byte b -> be16_of b i v -> word16 v.
Proof.
  intros Hb (hi & lo & Hhi & Hlo & ->). rewrite Forall_lookup in Hb.
  pose proof (Hb _ _ Hlo) as H1. pose proof (Hb _ _ Hhi) as H2.
  rewrite Z.lor_comm, (lor_bytes lo hi H1 H2). unfold word16, is_byte in *. lia.
Qed.

Lemma signed8_range (v : Z) : -15 <= v <= 255 -> -128 <= signed8 v <= 127.
Proof. unfold signed8. destruct (Z.leb_spec 128 v); lia. Qed.

Lemma moisture_simple_inv (raw : string) (r : MoistureSimple) :
  decode_moisture_simple raw = Ok r ->
  exists b b1,
    _parse_homgar_payload raw = Ok b /\ (9 <= length b)%nat /\
    b !! 5%nat = Some 0x88 /\
    b !! 1%nat = Some b1 /\ ms_rssi_dbm r = signed8 b1 /\
    b !! 6%nat = Some (ms_moisture_percent r) /\
    be16_of b 7 (ms_battery_status_code r) /\
    ms_raw_bytes r = b.
Proof.
  unfold decode_moisture_simple.
  destruct (_parse_homgar_payload raw) as [b|]; rsimpl; [|discriminate].
  destruct (Nat.ltb_spec (length b) 9) as [|Hlen]; [discriminate|].
  unfold item.
  destruct (b !! 5%nat) as [b5|] eqn:E5; rsimpl; [|discriminate].
  destruct (Z.eqb_spec b5 136) as [->|]; [|discriminate]. cbn [negb].
  destruct (b !! 1%nat) as [b1|] eqn:E1; rsimpl; [|discriminate].
  destruct (b !! 6%nat) as [b6|] eqn:E6; rsimpl; [|discriminate].
  destruct (b !! 7%nat) as [b7|] eqn:E7; rsimpl; [|discriminate].
  destruct (b !! 8%nat) as [b8|] eqn:E8; rsimpl; [|discriminate].
  intros [= <-]. exists b, b1. cbn. repeat split; try done.
  by exists b7, b8.
Qed.

Lemma moisture_full_inv (raw : string) (r : MoistureFull) :
  decode_moisture_full raw = Ok r ->
  exists b b1,
    _parse_homgar_payload raw = Ok b /\ (16 <= length b)%nat /\
    b !! 8%nat = Some 0x88 /\ b !! 10%nat = Some 0xC6 /\
    b !! 1%nat = Some b1 /\ mf_rssi_dbm r = signed8 b1 /\
    b !! 9%nat = Some (mf_moisture_percent r) /\
    le16_of b 6 (mf_temperature_f10 r) /\
    le16_of b 11 (mf_illuminance_raw10 r) /\
    be16_of b 14 (mf_battery_status_code r) /\
    mf_raw_bytes r = b.
Proof.
  unfold decode_moisture_full.
  destruct (_parse_homgar_payload raw) as [b|]; rsimpl; [|discriminate].
  destruct (Nat.ltb_spec (length b) 16) as [|Hlen]; [discriminate|].
  destruct (item b 1) as [b1|] eqn:E1; rsimpl; [|discriminate].
  destruct (_le16 b 6) as [t|] eqn:Et; rsimpl; [|discriminate].
  destruct (item b 8) as [b8|] eqn:E8; rsimpl; [|discriminate].
  destruct (Z.eqb_spec b8 136) as [->|]; [|discriminate]. cbn [negb].
  destruct (item b 9) as [b9|] eqn:E9; rsimpl; [|discriminate].
  destruct (item b 10) as [b10|] eqn:E10; rsimpl; [|discriminate].
  destruct (Z.eqb_spec b10 198) as [->|]; [|discriminate]. cbn [negb].
  destruct (_le16 b 11) as [l|] eqn:El; rsimpl; [|discriminate].
  destruct (item b 14) as [b14|] eqn:E14; rsimpl; [|discriminate].
  destruct (item b 15) as [b15|] eqn:E15; rsimpl; [|discriminate].
  intros [= <-]. exists b, b1. cbn.
  unfold item in *. repeat case_match; simplify_eq.
  repeat split; try done; auto using le16_inv.
  eexists _, _. repeat split; eauto.
Qed.

Lemma marker_missing_inv (b : list Z) (i : nat) (x y : Z) :
  marker_missing b i x y = Ok false -> b !! i = Some x /\ b !! S i = Some y.
Proof.
  unfold marker_missing, item. replace (i + 1)%nat with (S i) by lia.
  destruct (b !! i) as [bi|]; rsimpl; [|discriminate].
  destruct (Z.eqb_spec bi x) as [->|]; [|discriminate].
  destruct (b !! S i) as [bj|]; rsimpl; [|discriminate].
  destruct (Z.eqb_spec bj y) as [->|]; [done|discriminate].
Qed.

Lemma marker_present (b : list Z) (i : nat) (x y : Z) :
  b !! i = Some x -> b !! S i = Some y -> marker_missing b i x y = Ok false.
Proof.
  intros Hi Hj. unfold marker_missing, item. replace (i + 1)%nat with (S i) by lia.
  rewrite Hi, Hj. rsimpl. by rewrite !Z.eqb_refl.
Qed.

Lemma le16_total (b : list Z) (i : nat) :
  (S i < length b)%nat -> exists v, _le16 b i = Ok v.
Proof.
  intros H. unfold _le16, item. replace (i + 1)%nat with (S i) by lia.
  destruct (lookup_lt_is_Some_2 b i) as [lo ->]; [lia|].
  destruct (lookup_lt_is_Some_2 b (S i)) as [hi ->]; [lia|]. by eexists.
Qed.

Lemma item_total (b : list Z) (i : nat) :
  (i < length b)%nat -> exists v, item b i = Ok v.
Proof.
  intros H. unfold item. destruct (lookup_lt_is_Some_2 b i) as [v ->]; [lia|]. by eexists.
Qed.

Lemma rain_inv (raw : string) (r : Rain) :
  decode_rain raw = Ok r ->
  let b := rn_raw_bytes r in
  _parse_homgar_payload raw = Ok b /\ (24 <= length b)%nat /\ rain_markers b /\
  le16_of b 5 (rn_rain_last_hour_raw10 r) /\
  le16_of b 9 (rn_rain_last_24h_raw10 r) /\
  le16_of b 13 (rn_rain_last_7d_raw10 r) /\
  le16_of b 18 (rn_rain_total_raw10 r) /\
  rn_rain_last_hour_mm r = (float_of_int (rn_rain_last_hour_raw10 r) / 10.0)%float /\
  rn_rain_last_24h_mm r = (float_of_int (rn_rain_last_24h_raw10 r) / 10.0)%float /\
  rn_rain_last_7d_mm r = (float_of_int (rn_rain_last_7d_raw10 r) / 10.0)%float /\
  rn_rain_total_mm r = (float_of_int (rn_rain_total_raw10 r) / 10.0)%float /\
  be16_of b 22 (rn_battery_status_code r).
Proof.
  unfold decode_rain.
  destruct (_parse_homgar_payload raw) as [b|]; rsimpl; [|discriminate].
  destruct (Nat.ltb_spec (length b) 24) as [|Hlen]; [discriminate|].
  destruct (marker_missing b 3 253 4) as [[]|] eqn:M1; rsimpl; try discriminate.
  destruct (marker_missing b 7 253 5) as [[]|] eqn:M2; rsimpl; try discriminate.
  destruct (marker_missing b 11 253 6) as [[]|] eqn:M3; rsimpl; try discriminate.
  apply marker_missing_inv in M1 as [? ?], M2 as [? ?], M3 as [? ?].
  destruct (item b 17) as [b17|] eqn:E17; rsimpl; [|discriminate].
  destruct (Z.eqb_spec b17 151) as [->|]; [|discriminate]. cbn [negb].
  destruct (_le16 b 5) as [v1|] eqn:L1; rsimpl; [|discriminate].
  destruct (_le16 b 9) as [v2|] eqn:L2; rsimpl; [|discriminate].
  destruct (_le16 b 13) as [v3|] eqn:L3; rsimpl; [|discriminate].
  destruct (_le16 b 18) as [v4|] eqn:L4; rsimpl; [|discriminate].
  destruct (item b 22) as [b22|] eqn:E22; rsimpl; [|discriminate].
  destruct (item b 23) as [b23|] eqn:E23; rsimpl; [|discriminate].
  intros [= <-]. cbn.
  unfold item in *. repeat case_match; simplify_eq.
  split; [done|]. split; [done|]. split; [by repeat split|].
  repeat split; auto using le16_inv. eexists _, _. by repeat split.
Qed.

(** X6: a decoded rain payload carries the markers FD 04, FD 05, FD 06 and
    97; its four raw values are the little-endian reads at offsets 5, 9, 13
    and 18, each figure in millimetres is the raw value divided by 10, and
    the battery/status code is the big-endian read at offset 22. *)
Theorem rain_decoding (raw : string) (r : Rain) :
  decode_rain raw = Ok r ->
  let b := rn_raw_bytes r in
  _parse_homgar_payload raw = Ok b /\ (24 <= length b)%nat /\ rain_markers b /\
  le16_of b 5 (rn_rain_last_hour_raw10 r) /\
  le16_of b 9 (rn_rain_last_24h_raw10 r) /\
  le16_of b 13 (rn_rain_last_7d_raw10 r) /\
  le16_of b 18 (rn_rain_total_raw10 r) /\
  rn_rain_last_hour_mm r = (float_of_int (rn_rain_last_hour_raw10 r) / 10.0)%float /\
  rn_rain_last_24h_mm r = (float_of_int (rn_rain_last_24h_raw10 r) / 10.0)%float /\
  rn_rain_last_7d_mm r = (float_of_int (rn_rain_last_7d_raw10 r) / 10.0)%float /\
  rn_rain_total_mm r = (float_of_int (rn_rain_total_raw10 r) / 10.0)%float /\
  be16_of b 22 (rn_battery_status_code r).
Proof. apply rain_inv. Qed.

Lemma rain_decoding_witness :
  match decode_rain "10#E10000FD041900FD056400FD069001DC0197E8030000FF0F" with
  | Ok r =>
      rn_rain_last_hour_raw10 r = 25 /\ rn_rain_last_hour_mm r = 2.5%float /\
      rn_rain_last_24h_raw10 r = 100 /\ rn_rain_last_24h_mm r = 10.0%float /\
      rn_rain_last_7d_raw10 r = 400 /\ rn_rain_last_7d_mm r = 40.0%float /\
      rn_rain_total_raw10 r = 1000 /\ rn_rain_total_mm r = 100.0%float /\
      rain_markers (rn_raw_bytes r)
  | Raise _ => False
  end.
Proof.
  destruct (decode_rain "10#E10000FD041900FD056400FD069001DC0197E8030000FF0F")
    as [r|e] eqn:E; [|vm_compute in E; discriminate].
  destruct (rain_decoding _ r E) as (_ & _ & Hm & _).
  vm_compute in E. injection E as <-. by repeat split.
Defined.

(** X5: a decoder returns a reading exactly when the framing succeeds, the
    payload has the minimum length of the layout and the checked tag bytes
    are in place; no other byte is looked at to accept or refuse. *)
Theorem decoders_accept_iff (raw : string) :
  ((exists r, decode_moisture_simple raw = Ok r) <->
   exists b, _parse_homgar_payload raw = Ok b /\ (9 <= length b)%nat /\
             b !! 5%nat = Some 0x88) /\
  ((exists r, decode_moisture_full raw = Ok r) <->
   exists b, _parse_homgar_payload raw = Ok b /\ (16 <= length b)%nat /\
             b !! 8%nat = Some 0x88 /\ b !! 10%nat = Some 0xC6) /\
  ((exists r, decode_rain raw = Ok r) <->
   exists b, _parse_homgar_payload raw = Ok b /\ (24 <= length b)%nat /\
             rain_markers b).
Proof.
  split; [|split]; split.
  - intros [r (b & ? & ? & ? & ? & _)%moisture_simple_inv]. by exists b.
  - intros (b & Hp & Hlen & H5). unfold decode_moisture_simple. rewrite Hp. rsimpl.
    destruct (Nat.ltb_spec (length b) 9); [lia|].
    rewrite (item_lookup _ _ _ H5). rsimpl. cbn [Z.eqb Pos.eqb negb].
    destruct (item_total b 1) as [? ->]; [lia|].
    destruct (item_total b 6) as [? ->]; [lia|].
    destruct (item_total b 7) as [? ->]; [lia|].
    destruct (item_total b 8) as [? ->]; [lia|]. rsimpl. by eexists.
  - intros [r (b & ? & ? & ? & ? & ? & _)%moisture_full_inv]. by exists b.
  - intros (b & Hp & Hlen & H8 & H10). unfold decode_moisture_full. rewrite Hp. rsimpl.
    destruct (Nat.ltb_spec (length b) 16); [lia|].
    destruct (item_total b 1) as [? ->]; [lia|]. rsimpl.
    destruct (le16_total b 6) as [? ->]; [lia|]. rsimpl.
    rewrite (item_lookup _ _ _ H8). rsimpl. cbn [Z.eqb Pos.eqb negb].
    destruct (item_total b 9) as [? ->]; [lia|]. rsimpl.
    rewrite (item_lookup _ _ _ H10). rsimpl. cbn [Z.eqb Pos.eqb negb].
    destruct (le16_total b 11) as [? ->]; [lia|]. rsimpl.
    destruct (item_total b 14) as [? ->]; [lia|].
    destruct (item_total b 15) as [? ->]; [lia|]. rsimpl. by eexists.
  - intros [r Hr]. apply rain_inv in Hr as (? & ? & ? & _). by exists (rn_raw_bytes r).
  - intros (b & Hp & Hlen & (M3 & M4 & M7 & M8 & M11 & M12 & M17)).
    unfold decode_rain. rewrite Hp. rsimpl.
    destruct (Nat.ltb_spec (length b) 24); [lia|].
    rewrite (marker_present _ _ _ _ M3 M4). rsimpl.
    rewrite (marker_present _ _ _ _ M7 M8). rsimpl.
    rewrite (marker_present _ _ _ _ M11 M12). rsimpl.
    rewrite (item_lookup _ _ _ M17). rsimpl. cbn [Z.eqb Pos.eqb negb].
    destruct (le16_total b 5) as [? ->]; [lia|]. rsimpl.
    destruct (le16_total b 9) as [? ->]; [lia|]. rsimpl.
    destruct (le16_total b 13) as [? ->]; [lia|]. rsimpl.
    destruct (le16_total b 18) as [? ->]; [lia|]. rsimpl.
    destruct (item_total b 22) as [? ->]; [lia|].
    destruct (item_total b 23) as [? ->]; [lia|]. rsimpl. by eexists.
Qed.

(** X7: the RSSI of a decoded moisture reading is the second framed byte
    read as a signed 8-bit value, hence within -128..127; the moisture
    figure is the framed byte at offset 6 (simple layout) or 9 (full
    layout) as it stands, whatever its value: nothing limits it to
    0..100. *)
Theorem reading_ranges (raw : string) :
  (forall r, decode_moisture_simple raw = Ok r ->
     exists b b1,
       _parse_homgar_payload raw = Ok b /\
       b !! 1%nat = Some b1 /\ ms_rssi_dbm r = signed8 b1 /\
       -128 <= ms_rssi_dbm r <= 127 /\
       b !! 6%nat = Some (ms_moisture_percent r) /\
       -15 <= ms_moisture_percent r <= 255) /\
  (forall r, decode_moisture_full raw = Ok r ->
     exists b b1,
       _parse_homgar_payload raw = Ok b /\
       b !! 1%nat = Some b1 /\ mf_rssi_dbm r = signed8 b1 /\
       -128 <= mf_rssi_dbm r <= 127 /\
       b !! 9%nat = Some (mf_moisture_percent r) /\
       -15 <= mf_moisture_percent r <= 255).
Proof.
  split; intros r Hr.
  - apply moisture_simple_inv in Hr as (b & b1 & Hp & _ & _ & H1 & E & H6 & _).
    exists b, b1. pose proof (parse_range _ _ Hp) as Hb. rewrite Forall_lookup in Hb.
    split_and!; try done; rewrite ?E; try apply signed8_range;
      first [apply (Hb _ _ H1) | apply (Hb _ _ H6)].
  - apply moisture_full_inv in Hr as (b & b1 & Hp & _ & _ & _ & H1 & E & H9 & _).
    exists b, b1. pose proof (parse_range _ _ Hp) as Hb. rewrite Forall_lookup in Hb.
    split_and!; try done; rewrite ?E; try apply signed8_range;
      first [apply (Hb _ _ H1) | apply (Hb _ _ H9)].
Qed.

(** A moisture byte of 0xFF is reported as 255 and an RSSI byte of 0x80 as
    -128, by both layouts. *)
Lemma reading_ranges_witness :
  (exists r, decode_moisture_simple "10#E18000DC0188FF0001" = Ok r /\
     ms_rssi_dbm r = -128 /\ ms_moisture_percent r = 255) /\
  (exists r, decode_moisture_full "10#E18000DC0185F00288FFC6DC0500FF0F" = Ok r /\
     mf_rssi_dbm r = -128 /\ mf_moisture_percent r = 255).
Proof.
  split.
  - destruct (decode_moisture_simple "10#E18000DC0188FF0001") as [r|] eqn:E;
      [|vm_compute in E; discriminate].
    destruct (proj1 (reading_ranges _) r E) as (b & b1 & Hp & H1 & Hs & _ & H6 & _).
    vm_compute in Hp. injection Hp as <-.
    injection H1 as <-. injection H6 as H6. exists r. by split.
  - destruct (decode_moisture_full "10#E18000DC0185F00288FFC6DC0500FF0F") as [r|] eqn:E;
      [|vm_compute in E; discriminate].
    destruct (proj2 (reading_ranges _) r E) as (b & b1 & Hp & H1 & Hs & _ & H9 & _).
    vm_compute in Hp. injection Hp as <-.
    injection H1 as <-. injection H9 as H9. exists r. by split.
Defined.

(** X8: when the framed bytes are unsigned 8-bit values, every 16-bit field
    of a reading lies in 0..65535 and a little-endian read is low + 256 *
    high. *)
Theorem byte_payload_fields (raw : string) :
  (forall r, decode_moisture_simple raw = Ok r -> Forall is_byte (ms_raw_bytes r) ->
     0 <= ms_moisture_percent r <= 255 /\ word16 (ms_battery_status_code r)) /\
  (forall r, decode_moisture_full raw = Ok r -> Forall is_byte (mf_raw_bytes r) ->
     0 <= mf_moisture_percent r <= 255 /\
     word16 (mf_temperature_f10 r) /\ word16 (mf_illuminance_raw10 r) /\
     word16 (mf_battery_status_code r) /\
     exists lo hi, mf_raw_bytes r !! 6%nat = Some lo /\
                   mf_raw_bytes r !! 7%nat = Some hi /\
                   mf_temperature_f10 r = lo + 256 * hi) /\
  (forall r, decode_rain raw = Ok r -> Forall is_byte (rn_raw_bytes r) ->
     word16 (rn_rain_last_hour_raw10 r) /\ word16 (rn_rain_last_24h_raw10 r) /\
     word16 (rn_rain_last_7d_raw10 r) /\ word16 (rn_rain_total_raw10 r) /\
     word16 (rn_battery_status_code r)).
Proof.
  split; [|split]; intros r Hr Hb.
  - apply moisture_simple_inv in Hr as (b & b1 & _ & _ & _ & _ & _ & H6 & Hbat & Eb).
    rewrite Eb in Hb. split; [|apply (be16_word _ _ _ Hb Hbat)].
    rewrite Forall_lookup in Hb. apply (Hb _ _ H6).
  - apply moisture_full_inv in Hr as (b & b1 & _ & _ & _ & _ & _ & _ & H9 & Ht & Hl & Hbat & Eb).
    rewrite Eb in *. 
    destruct (le16_word b 6 _ Hb Ht) as [? ?].
    destruct (le16_word b 11 _ Hb Hl) as [? _].
    split; [rewrite Forall_lookup in Hb; apply (Hb _ _ H9)|].
    split_and!; try done. apply (be16_word _ _ _ Hb Hbat).
  - apply rain_inv in Hr as (_ & _ & _ & H1 & H2 & H3 & H4 & _ & _ & _ & _ & Hbat).
    destruct (le16_word _ 5 _ Hb H1) as [? _].
    destruct (le16_word _ 9 _ Hb H2) as [? _].
    destruct (le16_word _ 13 _ Hb H3) as [? _].
    destruct (le16_word _ 18 _ Hb H4) as [? _].
    split_and!; try done. apply (be16_word _ _ _ Hb Hbat).
Qed.

Lemma login_trace md5 (w : world) (c : HomGarClient) :
  let out := _login md5 (w, c) in
  let w1 := record_request (login_request md5 c) w in
  ((exists e, fst out = Raise e) /\ snd out = (w1, c) /\
   forall body d token, ~ accepted_login (login_reply md5 w c) body d token) \/
  (exists body d token,
     accepted_login (login_reply md5 w c) body d token /\
     let c1 := with_new_token token d c in
     match login_base w1 body with
     | Raise e => out = (Raise e, (w1, c1))
     | Ok base =>
         let w2 := if truthy (dict_get body "ts") then w1 else tick w1 in
         match login_lifetime d with
         | Raise e => out = (Raise e, (w2, c1))
         | Ok delta =>
             match datetime_add base delta with
             | Raise e => out = (Raise e, (w2, c1))
             | Ok expires_at =>
                 out = (Ok tt, (w2, set_token_expires_at (Some expires_at) c1))
             end
         end
     end).
Proof.
  intros out w1. unfold out, _login, login_reply, accepted_login. msimpl.
  fold w1. change (sent w ++ [login_request md5 c])%list with (sent w1).
  change (server w) with (server w1).
  destruct (server w1 (sent w1)) as [resp|e] eqn:Hr.
  2:{ left. split; [by eexists|]. split; [done|]. intros ? ? ? (? & ? & _). discriminate. }
  destruct (Z.eqb_spec (status resp) 200) as [Hs|Hs]; cbn [negb].
  2:{ left. split; [by eexists|]. split; [done|].
      intros ? ? ? (? & [= <-] & ? & _). done. }
  destruct (json resp) as [data|e] eqn:Hj.
  2:{ left. split; [by eexists|]. split; [done|].
      intros ? ? ? (? & [= <-] & _ & ? & _). congruence. }
  destruct data as [| | | | |body]; cbn [py_get];
    try (left; split; [by eexists|]; split; [done|];
         intros ? ? ? (? & [= <-] & _ & ? & _); congruence).
  cbn [py_contains]. 
  destruct (py_ne_zero (dict_get_default body "code" PNone)) eqn:Hc; cbn [orb].
  { left. split; [by eexists|]. split; [done|].
    intros ? ? ? (? & [= <-] & _ & ? & Hc' & _). unfold dict_get in Hc'. congruence. }
  destruct (body !! "data") as [dv|] eqn:Hd.
  2:{ left. rewrite bool_decide_eq_false_2 by (by intros [? ?]). cbn.
      split; [by eexists|]. split; [done|].
      intros ? ? ? (? & [= <-] & _ & ? & _ & ? & _). congruence. }
  rewrite bool_decide_eq_true_2 by eauto. cbn [negb py_getitem]. rewrite Hd.
  destruct dv as [| | | | |d]; cbn [py_getitem];
    try (left; split; [by eexists|]; split; [done|];
         intros ? ? ? (? & [= <-] & _ & ? & _ & ? & _); congruence).
  destruct (d !! "token") as [token|] eqn:Ht.
  2:{ left. split; [by eexists|]. split; [done|].
      intros ? ? ? (? & [= <-] & _ & ? & _ & ? & ?). congruence. }
  right. exists body, d, token. split.
  { exists resp. unfold dict_get. by repeat split. }
  unfold login_base, login_lifetime, with_new_token, dict_get.
  cbn [py_get]. msimpl.
  destruct (truthy (dict_get_default body "ts" PNone)).
  - destruct (fromtimestamp_div_1000 _); [|done].
    destruct (timedelta_seconds_of _); [|done]. by destruct (datetime_add _ _).
  - destruct (timedelta_seconds_of _); [|done]. by destruct (datetime_add _ _).
Qed.

Lemma conversion_errors :
  (forall v e, fromtimestamp_div_1000 v = Raise e -> conversion_error e) /\
  (forall v e, timedelta_seconds_of v = Raise e -> conversion_error e) /\
  (forall v e, fromtimestamp v = Raise e -> conversion_error e) /\
  (forall dt delta e, datetime_add dt delta = Raise e -> conversion_error e).
Proof.
  assert (U : forall timet us e,
            utc_from_timet_and_us timet us = Raise e -> conversion_error e).
  { intros timet us e. unfold utc_from_timet_and_us.
    destruct (_ || _); [by intros [= <-]|].
    destruct (_ || _); [by intros [= <-] | discriminate]. }
  assert (I1 : forall z e, fromtimestamp_int z = Raise e -> conversion_error e).
  { intros z e. unfold fromtimestamp_int.
    destruct (_ || _); [by intros [= <-] | apply U]. }
  assert (D : forall z e,
            (f ← int_true_divide z 1000; fromtimestamp_float f) = Raise e ->
            conversion_error e).
  { intros z e. unfold int_true_divide.
    destruct (overflows _); rsimpl; [by intros [= <-]|].
    unfold fromtimestamp_float. destruct (fraction _) as [fn fd].
    destruct (if 1000000 <=? _ then _ else _) as [sec us].
    destruct (_ || _); [by intros [= <-] | apply U]. }
  split_and!.
  - intros [] e; cbn [fromtimestamp_div_1000]; first [apply D | by intros [= <-]].
  - intros [] e; cbn [timedelta_seconds_of];
      first [by intros [= <-] | destruct (_ && _); [discriminate | by intros [= <-]]].
  - intros [] e; cbn [fromtimestamp]; first [apply I1 | by intros [= <-]].
  - intros dt delta e. unfold datetime_add.
    destruct (_ && _); [discriminate | by intros [= <-]].
Qed.

(** X9: a login that fails with an exception of another class than those
    of the conversions ([TypeError], [OverflowError], [ValueError],
    [OSError]) has sent the login request and left the client as it
    was. *)
Theorem login_failure_keeps_client md5 (w : world) (c : HomGarClient) (e : exn) :
  fst (_login md5 (w, c)) = Raise e -> ~ conversion_error e ->
  snd (_login md5 (w, c)) = (record_request (login_request md5 c) w, c).
Proof.
  intros He Hne.
  destruct (login_trace md5 w c) as [(_ & Hs & _) | (body & d & token & _ & H)]; [done|].
  exfalso. cbv zeta in H. unfold login_base, login_lifetime in H.
  destruct conversion_errors as (T1 & T2 & _ & T4).
  assert (Hrest : forall base,
    match timedelta_seconds_of (dict_get_default d "tokenExpired" (PInt 0)) with
    | Ok delta =>
        match datetime_add base delta with
        | Ok _ => True
        | Raise e' => conversion_error e'
        end
    | Raise e' => conversion_error e'
    end).
  { intros base. destruct (timedelta_seconds_of _) as [delta|e'] eqn:E2; [|by eapply T2].
    destruct (datetime_add base delta) as [x|e'] eqn:E4; [done | by eapply T4]. }
  destruct (truthy (dict_get body "ts")).
  - destruct (fromtimestamp_div_1000 _) as [base|e'] eqn:E1.
    + specialize (Hrest base).
      destruct (timedelta_seconds_of _); [destruct (datetime_add base _)|];
        rewrite H in He; cbn [fst] in He; simplify_eq; by apply Hne.
    + rewrite H in He. cbn [fst] in He. simplify_eq. by eapply Hne, T1.
  - specialize (Hrest (clock w (clock_reads w))).
    cbn [clock clock_reads record_request] in H.
    destruct (timedelta_seconds_of _); [destruct (datetime_add _ _)|];
      rewrite H in He; cbn [fst] in He; simplify_eq; by apply Hne.
Qed.

Lemma accepted_login_unique (r : result response) body d token body' d' token' :
  accepted_login r body d token -> accepted_login r body' d' token' ->
  body' = body /\ d' = d /\ token' = token.
Proof.
  intros (resp & -> & _ & Hj & _ & Hd & Ht) (resp' & [= <-] & _ & Hj' & _ & Hd' & Ht').
  rewrite Hj in Hj'. injection Hj' as <-. rewrite Hd in Hd'. injection Hd' as <-.
  rewrite Ht in Ht'. by injection Ht' as <-.
Qed.

(** X10: a login succeeds exactly when the answer is accepted, the base
    instant and the lifetime convert and their sum is a [datetime]; the
    client then holds the token of the answer and that sum as expiry. *)
Theorem login_success md5 (w : world) (c : HomGarClient) :
  (forall w' c', _login md5 (w, c) = (Ok tt, (w', c')) ->
     exists body d token base delta,
       accepted_login (login_reply md5 w c) body d token /\
       login_base w body = Ok base /\ login_lifetime d = Ok delta /\
       datetime_add base delta = Ok (base + delta) /\
       is_datetime (base + delta) /\
       c' = set_token_expires_at (Some (base + delta)) (with_new_token token d c) /\
       _token c' = token /\ _token_expires_at c' = Some (base + delta)) /\
  (forall body d token base delta,
     accepted_login (login_reply md5 w c) body d token ->
     login_base w body = Ok base -> login_lifetime d = Ok delta ->
     is_datetime (base + delta) ->
     fst (_login md5 (w, c)) = Ok tt).
Proof.
  pose proof (login_trace md5 w c) as T. cbv zeta in T.
  change (login_base (record_request (login_request md5 c) w)) with (login_base w) in T.
  split.
  - intros w' c' E. rewrite E in T.
    destruct T as [([e [=]] & _) | (body & d & token & Ha & H)].
    exists body, d, token.
    destruct (login_base w body) as [base|]; [|discriminate].
    destruct (login_lifetime d) as [delta|]; [|discriminate].
    destruct (datetime_add base delta) as [x|] eqn:Ex; [|discriminate].
    apply datetime_add_inv in Ex as [-> Hx].
    injection H as _ ->. exists base, delta.
    split_and!; try done. by apply datetime_add_ok.
  - intros body d token base delta Ha Hb Hd Hsum.
    destruct T as [(_ & _ & Hn) | (body' & d' & token' & Ha' & H)]; [by destruct (Hn _ _ _ Ha)|].
    destruct (accepted_login_unique _ _ _ _ _ _ _ Ha Ha') as (-> & -> & ->).
    rewrite Hb, Hd, (datetime_add_ok _ _ Hsum) in H. by rewrite H.
Qed.

(** X11: when the answer is accepted but [ts] or [tokenExpired] does not
    convert, the login raises after the new token is stored: the client
    holds the new token with the expiry it had before. *)
Theorem login_bad_lifetime md5 (w : world) (c : HomGarClient)
    (body d : gmap string pyval) (token : pyval) (e : exn) :
  accepted_login (login_reply md5 w c) body d token ->
  login_base w body = Raise e \/
    ((exists base, login_base w body = Ok base) /\ login_lifetime d = Raise e) ->
  fst (_login md5 (w, c)) = Raise e /\
  snd (snd (_login md5 (w, c))) = with_new_token token d c /\
  _token (snd (snd (_login md5 (w, c)))) = token /\
  _token_expires_at (snd (snd (_login md5 (w, c)))) = _token_expires_at c.
Proof.
  intros Ha Hbad. pose proof (login_trace md5 w c) as T. cbv zeta in T.
  change (login_base (record_request (login_request md5 c) w)) with (login_base w) in T.
  destruct T as [(_ & _ & Hn) | (body' & d' & token' & Ha' & H)]; [by destruct (Hn _ _ _ Ha)|].
  destruct (accepted_login_unique _ _ _ _ _ _ _ Ha Ha') as (-> & -> & ->).
  destruct Hbad as [Hb | [[base Hb] Hd]]; rewrite Hb in H; [|rewrite Hd in H];
    rewrite H; by repeat split.
Qed.

Lemma login_keeps_credentials md5 (w : world) (c : HomGarClient) :
  let c' := snd (snd (_login md5 (w, c))) in
  _base_url c' = _base_url c /\ Api._area_code c' = Api._area_code c /\
  Api._email c' = Api._email c /\ Api._password c' = Api._password c.
Proof.
  pose proof (login_trace md5 w c) as T. cbv zeta in T |- *.
  destruct T as [(_ & -> & _) | (body & d & token & _ & H)]; [done|].
  destruct (login_base _ body);
    [destruct (login_lifetime d); [destruct (datetime_add _ _)|]|]; by rewrite H.
Qed.

Lemma auth_lookup (t : pyval) :
  dict_get ({[ "auth" := t; "lang" := PStr "en"; "appCode" := PStr "1" ]}
            : gmap string pyval) "auth" = t.
Proof. reflexivity. Qed.

Lemma api_get_valid md5 name path params dflt (w : world) (c : HomGarClient)
    (expires_at : datetime) :
  token_held c -> _token_expires_at c = Some expires_at ->
  is_datetime (clock w (clock_reads w)) -> is_datetime expires_at ->
  clock w (clock_reads w) < expires_at - timedelta_minutes 5 ->
  valid_call w c (api_get md5 name path params dflt) name path params dflt.
Proof.
  intros Htok Hexp Hnow Hdt Hlt.
  assert (Hsub : datetime_sub expires_at (timedelta_minutes 5)
                 = Ok (expires_at - timedelta_minutes 5)).
  { apply datetime_sub_ok. unfold_range. lia. }
  unfold valid_call, requests_after, api_get, ensure_logged_in.
  msimpl. rewrite token_valid_eq, Htok, Hexp, Hsub.
  destruct (Z.ltb_spec (clock w (clock_reads w)) (expires_at - timedelta_minutes 5));
    [|lia].
  unfold _auth_headers. msimpl. rewrite Htok. cbn [negb].
  cbn [sent tick record_request server clock clock_reads].
  fold (get_request c path params).
  destruct (server w _) as [resp|e] eqn:Hr.
  2:{ cbn. split; [done|]. split; [done|]. unfold get_contract.
      split_and!; intros; simplify_eq; done. }
  destruct (Z.eqb_spec (status resp) 200) as [Hs|Hs]; cbn [negb].
  2:{ cbn. split; [done|]. split; [done|]. unfold get_contract.
      split_and!; intros; simplify_eq; done. }
  destruct (json resp) as [data|e] eqn:Hj.
  2:{ cbn. split; [done|]. split; [done|]. unfold get_contract.
      split_and!; intros; simplify_eq; congruence. }
  destruct data as [| | | | |body]; cbn [py_get];
    try (cbn; split; [done|]; split; [done|]; unfold get_contract;
         split_and!; intros; simplify_eq; congruence).
  fold (dict_get body "code").
  destruct (py_ne_zero (dict_get body "code")) eqn:Hc; cbn;
    (split; [done|]; split; [done|]); unfold get_contract;
    split_and!; intros; simplify_eq; congruence.
Qed.

Lemma tail_requests name path params dflt (w0 : world) (c0 : HomGarClient)
    (k : M cstate pyval) :
  k = (c ← self; headers ← _auth_headers;
       resp ← http {| req_method := GET; req_url := _base_url c ++ path;
                      req_params := params; req_headers := headers;
                      req_json := PNone |};
       if negb (status resp =? 200) then raise (HomGarApiError (name ++ " HTTP")) else
       data ← lift_result (json resp);
       code ← lift_result (py_get data "code" PNone);
       if py_ne_zero code then raise (HomGarApiError (name ++ " failed"))
       else lift_result (py_get data "data" dflt)) ->
  (requests_after (k (w0, c0)) = sent w0 /\ truthy (_token c0) = false) \/
  (requests_after (k (w0, c0)) = (sent w0 ++ [get_request c0 path params])%list /\
   truthy (_token c0) = true).
Proof.
  intros ->. unfold requests_after, _auth_headers. msimpl.
  destruct (truthy (_token c0)) eqn:Ht; cbn [negb]; [|by left].
  right. split; [|done]. fold (get_request c0 path params).
  repeat case_match; simplify_eq; reflexivity.
Qed.

Lemma api_get_requests md5 name path params dflt (w : world) (c : HomGarClient) :
  call_requests md5 w c (api_get md5 name path params dflt) path params.
Proof.
  unfold call_requests.
  pose proof (fun w0 c0 => tail_requests name path params dflt w0 c0 _ eq_refl) as T.
  unfold api_get, ensure_logged_in. msimpl. rewrite token_valid_eq.
  assert (Hlogin : forall w0, sent w0 = sent w ->
    exists new,
      requests_after
        (match _login md5 (w0, c) with
         | (Ok _, s') =>
             (c1 ← self; headers ← _auth_headers;
              resp ← http {| req_method := GET; req_url := _base_url c1 ++ path;
                             req_params := params; req_headers := headers;
                             req_json := PNone |};
              if negb (status resp =? 200)
              then raise (HomGarApiError (name ++ " HTTP")) else
              data ← lift_result (json resp);
              code ← lift_result (py_get data "code" PNone);
              if py_ne_zero code then raise (HomGarApiError (name ++ " failed"))
              else lift_result (py_get data "data" dflt)) s'
         | (Raise e, s') => (Raise e, s')
         end) = (sent w ++ new)%list /\
      (new = [login_request md5 c] \/
       exists g, (new = [g] \/ new = [login_request md5 c; g]) /\
         req_method g = GET /\ req_url g = _base_url c ++ path /\
         req_params g = params /\
         truthy (dict_get (req_headers g) "auth") = true)).
  { intros w0 Hw0. pose proof (login_sent md5 w0 c) as Hs.
    pose proof (login_keeps_credentials md5 w0 c) as (Hb & _). cbv zeta in Hb.
    unfold performs_login, requests_after in Hs. cbn [fst snd] in Hs. rewrite Hw0 in Hs.
    destruct (_login md5 (w0, c)) as [[[]|e] [w1 c1]]; cbn [fst snd] in Hs, Hb.
    - destruct (T w1 c1) as [[E _] | [E Ht]]; rewrite E, Hs.
      + exists [login_request md5 c]. split; [done|]. by left.
      + exists [login_request md5 c; get_request c1 path params].
        split; [by rewrite <- app_assoc|]. right. eexists. split; [by right|].
        cbn. rewrite Hb. by repeat split.
    - exists [login_request md5 c]. split; [done|]. by left. }
  destruct (truthy (_token c)) eqn:Ht;
    [|msimpl; destruct (Hlogin w eq_refl) as (new & ? & ?); exists new; auto].
  destruct (_token_expires_at c) as [e|];
    [|msimpl; destruct (Hlogin w eq_refl) as (new & ? & ?); exists new; auto].
  destruct (datetime_sub e (timedelta_minutes 5)) as [limit|err] eqn:Es.
  2:{ apply datetime_add_overflow in Es as [[msg ->] _]. msimpl.
      exists []. rewrite app_nil_r. split; [done|]. left. split; [done|]. by exists msg. }
  msimpl. destruct (_ <? _);
    [|destruct (Hlogin (tick w) eq_refl) as (new & ? & ?); exists new; auto].
  destruct (T (tick w) c) as [[_ E] | [E _]]; [congruence|].
  exists [get_request c path params]. split; [exact E|]. right. right.
  eexists. split; [by left|]. cbn. by repeat split.
Qed.

(** X12: with a valid token each of the three API calls sends one GET
    request carrying the token and no login, leaves the client as it was,
    raises [HomGarApiError] on a status other than 200 or a [code] other
    than 0, and otherwise returns [data] or the call's default. *)
Theorem api_calls_with_valid_token md5 (w : world) (c : HomGarClient)
    (expires_at : datetime) (hid mid : Z) :
  token_held c -> _token_expires_at c = Some expires_at ->
  is_datetime (clock w (clock_reads w)) -> is_datetime expires_at ->
  clock w (clock_reads w) < expires_at - timedelta_minutes 5 ->
  valid_call w c (list_homes md5) "list_homes" "/app/member/appHome/list"
    ∅ (PList []) /\
  valid_call w c (get_devices_by_hid md5 hid) "getDeviceByHid"
    "/app/device/getDeviceByHid" {[ "hid" := PInt hid ]} (PList []) /\
  valid_call w c (get_device_status md5 mid) "getDeviceStatus"
    "/app/device/getDeviceStatus" {[ "mid" := PInt mid ]} (PDict ∅).
Proof.
  intros Htok Hexp Hnow Hdt Hlt. split; [|split].
  - exact (api_get_valid md5 "list_homes" "/app/member/appHome/list" ∅ (PList [])
             w c expires_at Htok Hexp Hnow Hdt Hlt).
  - exact (api_get_valid md5 "getDeviceByHid" "/app/device/getDeviceByHid"
             {[ "hid" := PInt hid ]} (PList []) w c expires_at Htok Hexp Hnow Hdt Hlt).
  - exact (api_get_valid md5 "getDeviceStatus" "/app/device/getDeviceStatus"
             {[ "mid" := PInt mid ]} (PDict ∅) w c expires_at Htok Hexp Hnow Hdt Hlt).
Qed.

Lemma api_calls_with_valid_token_witness :
  fst (list_homes (fun s => s)
         (direct_world 1000000 (PDict {[ "code" := PInt 0 ]}),
          client_with (PStr "tok") (Some 302000000)))
  = Ok (PList []) /\
  fst (get_device_status (fun s => s) 7
         (direct_world 1000000 (PDict {[ "code" := PInt 3 ]}),
          client_with (PStr "tok") (Some 302000000)))
  = Raise (HomGarApiError "getDeviceStatus failed").
Proof.
  split.
  - destruct (api_calls_with_valid_token (fun s => s)
                (direct_world 1000000 (PDict {[ "code" := PInt 0 ]}))
                (client_with (PStr "tok") (Some 302000000)) 302000000 1 7)
      as ((_ & _ & _ & _ & _ & H) & _);
      [reflexivity | reflexivity | unfold_range; simpl; lia | unfold_range; lia
      | reflexivity |].
    apply (H _ _ eq_refl eq_refl eq_refl). vm_compute. reflexivity.
  - destruct (api_calls_with_valid_token (fun s => s)
                (direct_world 1000000 (PDict {[ "code" := PInt 3 ]}))
                (client_with (PStr "tok") (Some 302000000)) 302000000 1 7)
      as (_ & _ & (_ & _ & _ & _ & H & _));
      [reflexivity | reflexivity | unfold_range; simpl; lia | unfold_range; lia
      | reflexivity |].
    apply (H _ _ eq_refl eq_refl eq_refl). vm_compute. reflexivity.
Defined.

(** X13: from any state an API call sends at most the login request and one
    GET request, in this order, never retries, and the GET request always
    carries a truthy [auth] header. *)
Theorem api_calls_requests md5 (w : world) (c : HomGarClient) (hid mid : Z) :
  call_requests md5 w c (list_homes md5) "/app/member/appHome/list" ∅ /\
  call_requests md5 w c (get_devices_by_hid md5 hid)
    "/app/device/getDeviceByHid" {[ "hid" := PInt hid ]} /\
  call_requests md5 w c (get_device_status md5 mid)
    "/app/device/getDeviceStatus" {[ "mid" := PInt mid ]}.
Proof.
  split; [|split].
  - exact (api_get_requests md5 "list_homes" "/app/member/appHome/list" ∅ (PList []) w c).
  - exact (api_get_requests md5 "getDeviceByHid" "/app/device/getDeviceByHid"
             {[ "hid" := PInt hid ]} (PList []) w c).
  - exact (api_get_requests md5 "getDeviceStatus" "/app/device/getDeviceStatus"
             {[ "mid" := PInt mid ]} (PDict ∅) w c).
Qed.

(** X25: with a held token whose expiry lies in the first five minutes of
    the year 1, the validity check reads the clock and raises
    [OverflowError] when it subtracts the margin: ensure-logged-in and the
    three API calls raise it too, send nothing and leave the client as it
    was. *)
Theorem validity_check_overflow md5 (w : world) (c : HomGarClient)
    (expires_at : datetime) (hid mid : Z) :
  token_held c -> _token_expires_at c = Some expires_at ->
  expires_at < datetime_min + timedelta_minutes 5 ->
  exists msg,
    let out := (Raise (OverflowError msg), (tick w, c)) in
    ensure_logged_in md5 (w, c) = (Raise (OverflowError msg), (tick w, c)) /\
    list_homes md5 (w, c) = out /\
    get_devices_by_hid md5 hid (w, c) = out /\
    get_device_status md5 mid (w, c) = out /\
    sent (tick w) = sent w.
Proof.
  intros Htok Hexp Hlt.
  destruct (token_valid_overflow w c expires_at Htok Hexp Hlt) as [msg Hv].
  exists msg. cbv zeta.
  unfold list_homes, get_devices_by_hid, get_device_status, api_get, ensure_logged_in.
  msimpl. rewrite Hv. done.
Qed.

Lemma validity_check_overflow_witness :
  exists msg,
    ensure_logged_in (fun s => s)
      (frozen_world 1000000, client_with (PStr "tok") (Some (datetime_min + 120 * SECOND)))
    = (Raise (OverflowError msg),
       (tick (frozen_world 1000000),
        client_with (PStr "tok") (Some (datetime_min + 120 * SECOND)))).
Proof.
  destruct (validity_check_overflow (fun s => s) (frozen_world 1000000)
              (client_with (PStr "tok") (Some (datetime_min + 120 * SECOND)))
              (datetime_min + 120 * SECOND) 1 7)
    as (msg & H & _); [reflexivity | reflexivity | unfold_range; lia |].
  exists msg. exact H.
Defined.

Lemma login_failure_keeps_client_witness :
  snd (_login (fun s => s) (login_refused_world, client_with (PStr "old") (Some 5)))
  = (record_request
       (login_request (fun s => s) (client_with (PStr "old") (Some 5)))
       login_refused_world,
     client_with (PStr "old") (Some 5)).
Proof.
  apply (login_failure_keeps_client (fun s => s) login_refused_world
           (client_with (PStr "old") (Some 5)) (HomGarApiError "Login HTTP")).
  - reflexivity.
  - simpl. tauto.
Defined.

Lemma login_bad_lifetime_witness :
  _token (snd (snd (_login (fun s => s)
                      (null_lifetime_world, client_with (PStr "old") (Some 5)))))
  = PStr "T" /\
  _token_expires_at (snd (snd (_login (fun s => s)
                      (null_lifetime_world, client_with (PStr "old") (Some 5)))))
  = Some 5.
Proof.
  destruct (login_bad_lifetime (fun s => s) null_lifetime_world
              (client_with (PStr "old") (Some 5))
              {[ "code" := PInt 0;
                 "data" := PDict {[ "token" := PStr "T"; "tokenExpired" := PNone ]} ]}
              {[ "token" := PStr "T"; "tokenExpired" := PNone ]}
              (PStr "T")
              (TypeError "unsupported type for timedelta seconds component"))
    as (_ & _ & H1 & H2).
  - eexists. split; [reflexivity|]. repeat split; vm_compute; reflexivity.
  - right. split; [eexists; vm_compute; reflexivity | vm_compute; reflexivity].
  - split; [exact H1 | exact H2].
Defined.

(** X14: a snapshot whose expiry is absent or the Unix time of an instant
    of the years 1 to 9999, restored into a new client and exported again,
    gives back its three token fields. *)
Theorem restore_then_export (w : world) (a e p : string) (data : gmap string pyval) :
  snapshot_expiry_storable data ->
  exists c d,
    restore_tokens data (w, __init__ a e p) = (Ok tt, (w, c)) /\
    export_tokens (w, c) = (Ok d, (w, c)) /\
    dict_get d CONF_TOKEN = dict_get data CONF_TOKEN /\
    dict_get d CONF_REFRESH_TOKEN = dict_get data CONF_REFRESH_TOKEN /\
    dict_get d CONF_TOKEN_EXPIRES_AT = dict_get data CONF_TOKEN_EXPIRES_AT.
Proof.
  intros Hs.
  assert (Hc : exists c,
    restore_tokens data (w, __init__ a e p) = (Ok tt, (w, c)) /\
    _token c = dict_get data CONF_TOKEN /\
    _refresh_token c = dict_get data CONF_REFRESH_TOKEN /\
    match _token_expires_at c with
    | Some dt => PInt (timestamp_int dt)
    | None => PNone
    end = dict_get data CONF_TOKEN_EXPIRES_AT).
  { rewrite restore_tokens_eq. cbv zeta. destruct Hs as [Hn | (z & Hz & Hrange)].
    - rewrite Hn. eexists. split; [reflexivity|]. by repeat split.
    - rewrite Hz, (fromtimestamp_in_range z Hrange).
      eexists. split; [reflexivity|]. split; [done|]. split; [done|].
      cbn. by rewrite timestamp_int_whole. }
  destruct Hc as (c & Hr & Ht & Hrt & He).
  exists c, (snapshot_of c). split; [done|]. split; [apply export_tokens_eq|].
  destruct (snapshot_lookup c) as (L1 & L2 & L3).
  rewrite (dict_get_lookup _ _ _ L1), (dict_get_lookup _ _ _ L2),
    (dict_get_lookup _ _ _ L3).
  by repeat split.
Qed.

Lemma restore_then_export_witness :
  exists c d,
    restore_tokens {[ CONF_TOKEN := PStr "abc"; CONF_TOKEN_EXPIRES_AT := PInt 1700000000 ]}
      (frozen_world 0, __init__ "27" "user@example.org" "secret") = (Ok tt, (frozen_world 0, c)) /\
    export_tokens (frozen_world 0, c) = (Ok d, (frozen_world 0, c)) /\
    dict_get d CONF_TOKEN_EXPIRES_AT = PInt 1700000000.
Proof.
  destruct (restore_then_export (frozen_world 0) "27" "user@example.org" "secret"
              {[ CONF_TOKEN := PStr "abc"; CONF_TOKEN_EXPIRES_AT := PInt 1700000000 ]})
    as (c & d & H1 & H2 & _ & _ & H3).
  - right. exists 1700000000. split; [vm_compute; reflexivity | unfold_range; lia].
  - exists c, d. split; [exact H1|]. split; [exact H2|]. rewrite H3. vm_compute. reflexivity.
Defined.

(** X15: a snapshot whose expiry is a string, a list or a dictionary makes
    [restore_tokens] raise [TypeError] after the token and the refresh token
    are overwritten; the expiry held before stays. *)
Theorem restore_rejects_non_timestamp (w : world) (c : HomGarClient)
    (data : gmap string pyval) :
  not_a_timestamp (dict_get data CONF_TOKEN_EXPIRES_AT) ->
  exists msg,
    restore_tokens data (w, c)
    = (Raise (TypeError msg),
       (w, set_refresh_token (dict_get data CONF_REFRESH_TOKEN)
             (set_token (dict_get data CONF_TOKEN) c))).
Proof.
  intros H. unfold restore_tokens. msimpl.
  destruct (dict_get data CONF_TOKEN_EXPIRES_AT); try done; by eexists.
Qed.

Lemma restore_rejects_non_timestamp_witness :
  exists msg,
    restore_tokens {[ CONF_TOKEN := PStr "abc"; CONF_TOKEN_EXPIRES_AT := PStr "soon" ]}
      (frozen_world 0, client_with (PStr "old") (Some 5))
    = (Raise (TypeError msg),
       (frozen_world 0, client_with (PStr "abc") (Some 5))).
Proof.
  destruct (restore_rejects_non_timestamp (frozen_world 0)
              (client_with (PStr "old") (Some 5))
              {[ CONF_TOKEN := PStr "abc"; CONF_TOKEN_EXPIRES_AT := PStr "soon" ]})
    as [msg H].
  - vm_compute. exact I.
  - exists msg. rewrite H. vm_compute. reflexivity.
Defined.

(** X24: a snapshot whose expiry is an integer outside the years 1 to 9999
    makes [restore_tokens] raise [ValueError], [OverflowError] or [OSError]
    after the token and the refresh token are overwritten; the expiry held
    before stays. *)
Theorem restore_rejects_out_of_range (w : world) (c : HomGarClient)
    (data : gmap string pyval) (z : Z) :
  dict_get data CONF_TOKEN_EXPIRES_AT = PInt z ->
  ~ (MIN_TIMESTAMP <= z <= MAX_TIMESTAMP) ->
  exists e,
    range_error e /\
    restore_tokens data (w, c)
    = (Raise e,
       (w, set_refresh_token (dict_get data CONF_REFRESH_TOKEN)
             (set_token (dict_get data CONF_TOKEN) c))).
Proof.
  intros Hz Hout. destruct (fromtimestamp_out_of_range z Hout) as (e & He & Hr).
  exists e. split; [done|]. rewrite restore_tokens_eq. cbv zeta. by rewrite Hz, He.
Qed.

Lemma restore_rejects_out_of_range_witness :
  exists e,
    range_error e /\
    restore_tokens {[ CONF_TOKEN := PStr "abc"; CONF_TOKEN_EXPIRES_AT := PInt 253402300800 ]}
      (frozen_world 0, client_with (PStr "old") (Some 5))
    = (Raise e, (frozen_world 0, client_with (PStr "abc") (Some 5))).
Proof.
  destruct (restore_rejects_out_of_range (frozen_world 0)
              (client_with (PStr "old") (Some 5))
              {[ CONF_TOKEN := PStr "abc"; CONF_TOKEN_EXPIRES_AT := PInt 253402300800 ]}
              253402300800)
    as (e & He & H); [vm_compute; reflexivity | unfold_range; lia |].
  exists e. split; [exact He|]. rewrite H. vm_compute. reflexivity.
Defined.

Lemma step_user_run md5 cstr (s : wstate) (ui : UserInput) :
  key_free (email ui) (w_entries s) ->
  let client := Api.__init__ (area_code ui) (email ui) (password ui) in
  let out := async_step_user md5 cstr (Some ui) s in
  w_world (snd out) = fst (snd (probe md5 (w_world s, client))) /\
  w_entries (snd out) = w_entries s /\
  unique_id (w_flow (snd out)) = Some (unique_id_for (email ui)) /\
  match probe md5 (w_world s, client) with
  | (Ok homes, (_, c')) =>
      if truthy homes then
        retained (w_flow (snd out))
        = (Some (area_code ui), Some (email ui), Some (password ui),
           Some homes, Some c')
      else
        fst out = Ok (user_form {[ "base" := "no_homes" ]}) /\
        retained (w_flow (snd out)) = retained (w_flow s)
  | (Raise e, _) =>
      retained (w_flow (snd out)) = retained (w_flow s) /\
      (uncaught e -> fst out = Raise e)
  end.
Proof.
  intros Hfree%key_free_existsb client out.
  destruct s as [w entries f]. simpl in Hfree.
  unfold out, async_step_user. wsimpl.
  fold (unique_id_for (email ui)). rewrite Hfree. fold client.
  destruct (probe md5 (w, client)) as [[homes|e] [w' c']]; wsimpl.
  - destruct (truthy homes); cbn [negb]; wsimpl; [|done].
    unfold store. wsimpl.
    match goal with
    | |- context [async_step_select_homes cstr None ?st] =>
        pose proof (select_homes_keeps_state cstr None st) as Hk;
        destruct (async_step_select_homes cstr None st) as [r s']
    end.
    cbn [snd] in Hk |- *. subst s'. done.
  - destruct e; cbn; (split; [done|]); (split; [done|]); (split; [done|]);
      (split; [done|]); intros [H1 H2]; try done;
      [by destruct (H1 msg) | by destruct (H2 msg)].
Qed.

(** X16: when the two calls succeed with an empty home list, step "user"
    shows its form again with [no_homes], retains nothing for the next step
    and adds no entry. *)
Theorem step_user_no_homes md5 cstr (s : wstate) (ui : UserInput)
    (homes : pyval) (w' : world) (c' : HomGarClient) :
  key_free (email ui) (w_entries s) ->
  probe md5 (w_world s, Api.__init__ (area_code ui) (email ui) (password ui))
    = (Ok homes, (w', c')) ->
  truthy homes = false ->
  let out := async_step_user md5 cstr (Some ui) s in
  fst out = Ok (user_form {[ "base" := "no_homes" ]}) /\
  retained (w_flow (snd out)) = retained (w_flow s) /\
  w_entries (snd out) = w_entries s.
Proof.
  intros Hfree Hp Hh out.
  destruct (step_user_run md5 cstr s ui Hfree) as (_ & He & _ & H).
  rewrite Hp, Hh in H. by destruct H.
Qed.

(** X17: an exception of the two calls that is neither [HomGarApiError] nor
    [aiohttp.ClientError] leaves step "user" as it is; the flow retains
    nothing. *)
Theorem step_user_propagates md5 cstr (s : wstate) (ui : UserInput) (e : exn) :
  key_free (email ui) (w_entries s) ->
  fst (probe md5 (w_world s, Api.__init__ (area_code ui) (email ui) (password ui)))
    = Raise e ->
  uncaught e ->
  let out := async_step_user md5 cstr (Some ui) s in
  fst out = Raise e /\ retained (w_flow (snd out)) = retained (w_flow s) /\
  w_entries (snd out) = w_entries s.
Proof.
  intros Hfree Hp Hu out.
  destruct (step_user_run md5 cstr s ui Hfree) as (_ & He & _ & H).
  destruct (probe md5 _) as [[homes|e'] [w' c']]; [discriminate|].
  injection Hp as ->. destruct H as [H1 H2]. by repeat split; [apply H2| |].
Qed.

Lemma ensure_unset md5 (w : world) (c : HomGarClient) :
  truthy (_token c) = false \/ _token_expires_at c = None ->
  ensure_logged_in md5 (w, c) = _login md5 (w, c).
Proof. intros Hu. unfold ensure_logged_in. msimpl. by rewrite token_valid_unset. Qed.

Lemma probe_eq md5 (s0 : cstate) :
  probe md5 s0 =
    match ensure_logged_in md5 s0 with
    | (Ok _, s1) => list_homes md5 s1
    | (Raise e, s1) => (Raise e, s1)
    end.
Proof. reflexivity. Qed.

(** X18: for an account not yet configured, step "user" first sends the
    login request built from the submitted credentials, and at most two
    requests after it. *)
Theorem step_user_requests md5 cstr (s : wstate) (ui : UserInput) :
  key_free (email ui) (w_entries s) ->
  let client := Api.__init__ (area_code ui) (email ui) (password ui) in
  exists rest,
    sent (w_world (snd (async_step_user md5 cstr (Some ui) s)))
    = (sent (w_world s) ++ login_request md5 client :: rest)%list /\
    (length rest <= 2)%nat.
Proof.
  intros Hfree client.
  destruct (step_user_run md5 cstr s ui Hfree) as (-> & _). fold client.
  rewrite probe_eq, (ensure_unset md5 (w_world s) client) by (by left).
  pose proof (login_sent md5 (w_world s) client) as Hs.
  unfold performs_login, requests_after in Hs. cbn [fst snd] in Hs.
  destruct (_login md5 (w_world s, client)) as [[[]|e] [w1 c1]]; cbn [fst snd] in Hs |- *.
  2:{ exists []. rewrite Hs. split; [done | simpl; lia]. }
  destruct (api_get_requests md5 "list_homes" "/app/member/appHome/list" ∅ (PList [])
              w1 c1) as (new & Hn & Hcase).
  unfold requests_after in Hn. fold (list_homes md5) in Hn.
  rewrite Hn, Hs, <- app_assoc. exists new. split; [done|].
  destruct Hcase as [[-> _] | [-> | (g & [-> | ->] & _)]]; simpl; lia.
Qed.

Lemma select_homes_data cstr (sel : SelectInput) (s s' : wstate) title data :
  async_step_select_homes cstr (Some sel) s = (Ok (CreateEntry title data), s') ->
  exists a e p hid c,
    retained (w_flow s) = (Some a, Some e, Some p, _homes (w_flow s), Some c) /\
    hids sel <> "" /\ py_int 10 (hids sel) = Ok hid /\
    title = "HomGar (" ++ e ++ ")" /\
    entry_data_of a e p hid c data.
Proof.
  destruct s as [w entries [uid a e p h c]].
  unfold async_step_select_homes, attr. wsimpl.
  cbn [_homes _client ConfigFlow._area_code ConfigFlow._email ConfigFlow._password].
  destruct h as [homes|]; wsimpl; [|discriminate].
  destruct (home_options cstr homes); wsimpl; [|discriminate].
  destruct (String.eqb_spec (hids sel) ""); wsimpl; [discriminate|].
  destruct (py_int 10 (hids sel)) as [hid|]; wsimpl; [|discriminate].
  destruct c as [c|]; wsimpl; [|discriminate].
  rewrite export_tokens_eq. wsimpl.
  destruct a as [a|], e as [e|], p as [p|]; wsimpl; try discriminate.
  intros [= <- <- _]. exists a, e, p, hid, c.
  split; [done|]. split; [done|]. split; [done|]. split; [done|].
  destruct (snapshot_lookup c) as (L1 & L2 & L3).
  unfold entry_data_of.
  rewrite !(lookup_union_r (snapshot_of c)) by reflexivity.
  rewrite (lookup_union_Some_l _ _ _ _ L1), (lookup_union_Some_l _ _ _ _ L2),
    (lookup_union_Some_l _ _ _ _ L3).
  by repeat split.
Qed.

(** X19: a create-entry result of step "select_homes" has the title built
    from the retained email and data holding the retained credentials, the
    one selected home id as an integer, and the token snapshot of the
    retained client; the step changes nothing. *)
Theorem select_homes_creates_entry cstr (sel : SelectInput) (s s' : wstate)
    title data :
  async_step_select_homes cstr (Some sel) s = (Ok (CreateEntry title data), s') ->
  s' = s /\
  exists a e p hid c,
    retained (w_flow s) = (Some a, Some e, Some p, _homes (w_flow s), Some c) /\
    hids sel <> "" /\ py_int 10 (hids sel) = Ok hid /\
    title = "HomGar (" ++ e ++ ")" /\
    entry_data_of a e p hid c data.
Proof.
  intros H. split; [|by eapply select_homes_data].
  pose proof (select_homes_keeps_state cstr (Some sel) s) as Hk. by rewrite H in Hk.
Qed.

(** X20: restoring the data of the entry the wizard creates into a new
    client, as start-up does, gives the wizard client's token and refresh
    token, and as expiry the whole second the export wrote, less than one
    second away from the wizard client's expiry.  The expiry lies before
    the last second of the year 9999, where the export can reach the year
    10000, see [timestamp_int_last_second]. *)
Theorem created_entry_restores cstr (sel : SelectInput) (s s' : wstate)
    title data (c : HomGarClient) (w : world) (a e p : string) :
  async_step_select_homes cstr (Some sel) s = (Ok (CreateEntry title data), s') ->
  _client (w_flow s) = Some c ->
  expiry_before_last_second c ->
  exists c',
    restore_tokens data (w, Api.__init__ a e p) = (Ok tt, (w, c')) /\
    _token c' = _token c /\ _refresh_token c' = _refresh_token c /\
    _token_expires_at c'
    = (fun dt => timestamp_int dt * SECOND) <$> _token_expires_at c /\
    (forall dt dt', _token_expires_at c = Some dt -> _token_expires_at c' = Some dt' ->
       dt' mod SECOND = 0 /\ Z.abs (dt' - dt) < SECOND).
Proof.
  intros (a0 & e0 & p0 & hid & c0 & Hr & _ & _ & _ & Hd)%select_homes_data Hc Hbefore.
  assert (c0 = c) as -> by (unfold retained in Hr; congruence).
  destruct Hd as (_ & _ & _ & _ & L1 & L2 & L3).
  rewrite restore_tokens_eq. cbv zeta.
  rewrite (dict_get_lookup _ _ _ L1), (dict_get_lookup _ _ _ L2),
    (dict_get_lookup _ _ _ L3).
  destruct (_token_expires_at c) as [dt|] eqn:Hdt.
  - specialize (Hbefore dt Hdt).
    assert (Hin : is_datetime dt) by (unfold_range; lia).
    pose proof (timestamp_int_near dt Hin) as Hnear.
    rewrite fromtimestamp_in_range by (unfold_range; lia).
    eexists. split; [reflexivity|]. split_and!; try done.
    cbn. intros ? ? [= <-] [= <-]. split; [apply Z.mod_mul; done | done].
  - eexists. split; [reflexivity|]. split_and!; try done.
Qed.

(** X21: step "select_homes" sends no request, reads no clock and changes
    neither the flow nor the entries, whatever the submission. *)
Theorem select_homes_is_local cstr (ui : option SelectInput) (s : wstate) :
  snd (async_step_select_homes cstr ui s) = s.
Proof. apply select_homes_keeps_state. Qed.

Lemma home_options_of_keys cstr (hs : list pyval) :
  forall acc opts, home_options_of cstr hs acc = Ok opts ->
  forall k, is_Some (opts !! k) <->
            is_Some (acc !! k) \/ exists h, h ∈ hs /\ home_key cstr h k.
Proof.
  induction hs as [|h hs IH]; intros acc opts.
  - intros [= <-] k. split; [by left|]. intros [?|(h & Hh & _)]; [done|].
    by apply not_elem_of_nil in Hh.
  - cbn [home_options_of].
    destruct (py_getitem h "hid") as [hid|] eqn:E1; rsimpl; [|discriminate].
    destruct (py_getitem h "homeName") as [name|] eqn:E2; rsimpl; [|discriminate].
    intros H k. rewrite (IH _ _ H k). rewrite lookup_insert_is_Some. split.
    + intros [[<- | [_ ?]] | (h' & Hin & Hk)].
      * right. exists h. split; [apply list_elem_of_here|]. by exists hid.
      * by left.
      * right. exists h'. split; [by apply list_elem_of_further|done].
    + intros [Hacc | (h' & Hin & Hk)].
      * destruct (decide (py_str cstr hid = k)); [by left; left|]. left. by right.
      * apply elem_of_cons in Hin as [-> | Hin].
        -- destruct Hk as (hid' & E & ->). rewrite E1 in E. injection E as <-.
           left. by left.
        -- right. by exists h'.
Qed.

(** X22: when the options of the home selection can be built, every home
    has a [hid] and a [homeName], and the option keys are exactly the
    [str(hid)] of the homes. *)
Theorem home_options_keys cstr (hs : list pyval) (opts : gmap string pyval) :
  home_options cstr (PList hs) = Ok opts ->
  (forall k, is_Some (opts !! k) <-> exists h, h ∈ hs /\ home_key cstr h k) /\
  Forall (fun h => exists hid name,
            py_getitem h "hid" = Ok hid /\ py_getitem h "homeName" = Ok name) hs.
Proof.
  cbn [home_options]. intros H. split.
  - intros k. rewrite (home_options_of_keys cstr hs _ _ H k). rewrite lookup_empty.
    split; [intros [[? [=]]|]; done | by right].
  - revert H. generalize (∅ : gmap string pyval).
    induction hs as [|h hs IH]; intros acc; [constructor|].
    cbn [home_options_of].
    destruct (py_getitem h "hid") as [hid|] eqn:E1; rsimpl; [|discriminate].
    destruct (py_getitem h "homeName") as [name|] eqn:E2; rsimpl; [|discriminate].
    intros H. constructor; [by eexists _, _ | by eapply IH].
Qed.

Lemma key_free_nil (em : string) : key_free em [].
Proof. intros e He. by apply not_elem_of_nil in He. Qed.

Lemma step_user_no_homes_witness :
  fst (async_step_user (fun s => s) (fun _ => "") (Some sample_input)
         (wizard_state (cloud no_homes_body) []))
  = Ok (user_form {[ "base" := "no_homes" ]}).
Proof.
  eapply (step_user_no_homes (fun s => s) (fun _ => "")
            (wizard_state (cloud no_homes_body) []) sample_input (PList [])).
  - apply key_free_nil.
  - vm_compute. reflexivity.
  - reflexivity.
Defined.

Lemma step_user_propagates_witness :
  fst (async_step_user (fun s => s) (fun _ => "") (Some sample_input)
         (wizard_state tokenless_world []))
  = Raise (KeyError "token").
Proof.
  apply (step_user_propagates (fun s => s) (fun _ => "")
           (wizard_state tokenless_world []) sample_input (KeyError "token")).
  - apply key_free_nil.
  - vm_compute. reflexivity.
  - split; intros msg; discriminate.
Defined.

Lemma step_user_requests_witness :
  exists rest,
    sent (w_world (snd (async_step_user (fun s => s) (fun _ => "") (Some sample_input)
                          (wizard_state homes_down_world []))))
    = (sent homes_down_world
       ++ login_request (fun s => s)
            (Api.__init__ "27" "user@example.org" "secret") :: rest)%list /\
    (length rest <= 2)%nat.
Proof.
  apply (step_user_requests (fun s => s) (fun _ => "")
           (wizard_state homes_down_world []) sample_input).
  apply key_free_nil.
Defined.

Lemma select_homes_creates_entry_witness :
  match fst (async_step_select_homes (fun _ => "") (Some home_seven) at_home_selection) with
  | Ok (CreateEntry title data) =>
      title = "HomGar (user@example.org)" /\
      data !! CONF_HIDS = Some (PList [PInt 7]) /\
      data !! CONF_EMAIL = Some (PStr "user@example.org") /\
      data !! CONF_TOKEN = Some (PStr "T")
  | _ => False
  end.
Proof.
  destruct (async_step_select_homes (fun _ => "") (Some home_seven) at_home_selection)
    as [[[? ? ?|title data]|e] s'] eqn:E; cbn [fst]; try (vm_compute in E; discriminate).
  destruct (select_homes_creates_entry _ _ _ _ _ _ E)
    as (_ & a & em & p & hid & c & Hr & _ & Hh & Ht & (_ & H2 & _ & H4 & H5 & _)).
  vm_compute in Hr. injection Hr as <- <- <- <-.
  vm_compute in Hh. injection Hh as <-.
  by repeat split.
Defined.

Lemma created_entry_restores_witness :
  match fst (async_step_select_homes (fun _ => "") (Some home_seven) at_home_selection) with
  | Ok (CreateEntry title data) =>
      exists c',
        restore_tokens data (frozen_world 0, Api.__init__ "27" "user@example.org" "secret")
        = (Ok tt, (frozen_world 0, c')) /\
        _token c' = PStr "T" /\ _token_expires_at c' = Some 1700003600000000
  | _ => False
  end.
Proof.
  destruct (async_step_select_homes (fun _ => "") (Some home_seven) at_home_selection)
    as [[[? ? ?|title data]|e] s'] eqn:E; cbn [fst]; try (vm_compute in E; discriminate).
  destruct (_client (w_flow at_home_selection)) as [c|] eqn:Ec;
    [|vm_compute in Ec; discriminate].
  destruct (created_entry_restores _ _ _ _ _ _ c (frozen_world 0)
              "27" "user@example.org" "secret" E Ec)
    as (c' & H1 & H2 & _ & H4 & _).
  - vm_compute in Ec. injection Ec as <-. intros dt [= <-]. unfold_range. lia.
  - vm_compute in Ec. injection Ec as <-.
    exists c'. split; [exact H1|]. split; [exact H2|]. rewrite H4.
    vm_compute. reflexivity.
Defined.

(** X23: once the host holds the entry the wizard created for an email, a
    later submission of step "user" with that email aborts as already
    configured, before anything is sent. *)
Theorem resubmission_aborts md5 cstr (s s1 s2 s3 : wstate) (ui ui' : UserInput)
    (sel : SelectInput) schema errors title data :
  async_step_user md5 cstr (Some ui) s
    = (Ok (ShowForm "select_homes" schema errors), s1) ->
  async_step_select_homes cstr (Some sel) s1 = (Ok (CreateEntry title data), s2) ->
  w_entries s3 = w_entries (host_finish (Ok (CreateEntry title data)) s2) ->
  email ui' = email ui ->
  let out := async_step_user md5 cstr (Some ui') s3 in
  fst out = Raise (AbortFlow "already_configured") /\
  w_world (snd out) = w_world s3 /\
  w_entries (snd out) = w_entries s3.
Proof.
  intros H1 H2 He Hem.
  pose proof (wizard_entry_keyed md5 cstr s s1 s2 ui sel schema errors title data H1 H2)
    as Hc.
  rewrite <- He, <- Hem in Hc. apply configured_existsb in Hc.
  destruct s3 as [w entries f]. cbn [w_entries] in Hc.
  unfold async_step_user. wsimpl.
  fold (unique_id_for (email ui')). rewrite Hc. done.
Qed.

Lemma resubmission_aborts_witness :
  fst (async_step_user (fun s => s) (fun _ => "") (Some sample_input)
         (wizard_state homes_down_world
            (w_entries
               (host_finish
                  (fst (async_step_select_homes (fun _ => "") (Some home_seven)
                          at_home_selection))
                  (snd (async_step_select_homes (fun _ => "") (Some home_seven)
                          at_home_selection))))))
  = Raise (AbortFlow "already_configured").
Proof.
  destruct (async_step_select_homes (fun _ => "") (Some home_seven) at_home_selection)
    as [[[? ? ?|title data]|e] s2] eqn:E; try (vm_compute in E; discriminate).
  cbn [fst snd].
  eapply (resubmission_aborts (fun s => s) (fun _ => "")
            (wizard_state (cloud one_home_body) []) at_home_selection s2
            (wizard_state homes_down_world
               (w_entries (host_finish (Ok (CreateEntry title data)) s2)))
            sample_input sample_input home_seven).
  - vm_compute. reflexivity.
  - exact E.
  - reflexivity.
  - reflexivity.
Defined.

Lemma home_options_keys_witness :
  is_Some (({[ "7" := PStr "Garden" ]} : gmap string pyval) !! "7") <->
  exists h, h ∈ [PDict {[ "hid" := PInt 7; "homeName" := PStr "Garden" ]}] /\
            home_key (fun _ => "") h "7".
Proof.
  apply (home_options_keys (fun _ => "")
           [PDict {[ "hid" := PInt 7; "homeName" := PStr "Garden" ]}]
           {[ "7" := PStr "Garden" ]}).
  vm_compute. reflexivity.
Defined.
